(** * ATS resume analyser: a shallow embedding of [app.py]

    The development follows the layout of the script:
    the pydantic models [Feedback] and [ATSResult], the PDF helper
    [extract_text_from_pdf], the cached factory [get_gemini_client], the
    retrying request wrapper [analyze_resume_ats], and the Streamlit entry
    point [main_app].

    Python values are represented as the script has them: [str] is a
    sequence of Unicode code points, [int] is an unbounded integer, [None]
    is the [None] of [option].  Side effects (elements written to the page,
    [time.sleep], requests sent to the model) are appended to a trace kept
    in an explicit world; exceptions are results of the computation and are
    handled by a [try]/[except] combinator. *)

From Stdlib Require Import List ZArith NArith QArith Bool Lia Ascii String.
From Stdlib Require Import Permutation.
Import ListNotations.

Set Implicit Arguments.
Set Warnings "-register-all".

(** ** Python strings *)

Definition str := list N.

Definition lit (s : string) : str :=
  List.map N_of_ascii (list_ascii_of_string s).
Arguments lit s%_string.

(** The line feed, written [\n] in the script. *)
Definition nl : str := [10%N].

Fixpoint str_eqb (a b : str) : bool :=
  match a, b with
  | [], [] => true
  | x :: a', y :: b' => N.eqb x y && str_eqb a' b'
  | _, _ => false
  end.

(** [bool(s)] for a string: the empty string is the only falsy one. *)
Definition truthy (s : str) : bool :=
  match s with
  | [] => false
  | _ :: _ => true
  end.

(** [str.isspace] on one code point: the ASCII table of CPython
    (TAB..CR, FS..US, SPACE) and the Unicode white space above it. *)
Definition isspace (c : N) : bool :=
  ((9 <=? c) && (c <=? 13) || (28 <=? c) && (c <=? 31) || (c =? 32)
   || (c =? 133) || (c =? 160) || (c =? 5760)
   || (8192 <=? c) && (c <=? 8202)
   || (c =? 8232) || (c =? 8233) || (c =? 8239) || (c =? 8287)
   || (c =? 12288))%N.

Fixpoint lstrip (s : str) : str :=
  match s with
  | [] => []
  | c :: r => if isspace c then lstrip r else s
  end.

Definition rstrip (s : str) : str := rev (lstrip (rev s)).

(** [s.strip()] without argument. *)
Definition strip (s : str) : str := rstrip (lstrip s).

(** [str(n)] for an integer, in decimal. *)
Fixpoint digits (fuel : nat) (n : N) (acc : str) : str :=
  match fuel with
  | O => acc
  | S fuel' =>
      let acc' := (48 + n mod 10)%N :: acc in
      if (n <? 10)%N then acc' else digits fuel' (n / 10)%N acc'
  end.

Definition str_of_int (z : Z) : str :=
  let n := Z.abs_N z in
  let body := digits (S (N.to_nat (N.log2 n))) n [] in
  if (z <? 0)%Z then 45%N :: body else body.

(** ** JSON values

    The value a JSON text decodes to.  A number written without fraction
    or exponent is [JInt]; any other number keeps its lexeme. *)

Inductive json : Type :=
| JNull
| JBool (b : bool)
| JInt (z : Z)
| JFloat (lexeme : str)
| JStr (s : str)
| JArray (items : list json)
| JObject (members : list (str * json)).

(** Member access of a decoded object: the binding of [name], if any.
    A decoder leaves one binding for each name. *)
Fixpoint get_member (name : str) (members : list (str * json)) : option json :=
  match members with
  | [] => None
  | (k, v) :: rest => if str_eqb k name then Some v else get_member name rest
  end.

(** ** The validation library

    [model_validate_json] is pydantic's.  What the script fixes is the two
    model classes; what the library contributes is gathered here: the
    decoding of JSON text, the coercions the default (lax) mode applies to
    an [int] field when the value is not a JSON integer, the text of the
    error raised on a rejected input, and the JSON schema generated for
    [ATSResult]. *)

Class Pydantic : Type := {
  json_loads : str -> option json;
  lax_int : json -> option Z;
  validation_error_str : str -> str;
  ATSResult_model_json_schema : json
}.

(** ** 1. The structured output schema *)

(** [class Feedback(BaseModel)] *)
Record Feedback : Type := {
  keywordMatch : str;
  contentImpact : str;
  formattingAndStructure : str
}.

(** [class ATSResult(BaseModel)] *)
Record ATSResult : Type := {
  score : Z;
  summary : str;
  feedback : Feedback
}.

(** The [description] given to [Field] for [score]. *)
Definition score_description : str :=
  lit "The ATS compatibility score from 0 to 100, where higher is better.".

Section Validation.
Context {P : Pydantic}.

(** A field annotated [str]: in JSON input only a string is accepted. *)
Definition validate_str (j : json) : option str :=
  match j with
  | JStr s => Some s
  | _ => None
  end.

(** A field annotated [int]: a JSON integer is taken as it is, of any
    size and sign; [Field] carries a description and no bound. *)
Definition validate_int (j : json) : option Z :=
  match j with
  | JInt z => Some z
  | _ => lax_int j
  end.

(** A required field: the member must be present and valid. *)
Definition required {A : Type} (name : str) (validate : json -> option A)
    (members : list (str * json)) : option A :=
  match get_member name members with
  | Some v => validate v
  | None => None
  end.

Definition validate_Feedback (j : json) : option Feedback :=
  match j with
  | JObject members =>
      match required (lit "keywordMatch") validate_str members,
            required (lit "contentImpact") validate_str members,
            required (lit "formattingAndStructure") validate_str members with
      | Some k, Some c, Some f =>
          Some {| keywordMatch := k; contentImpact := c;
                  formattingAndStructure := f |}
      | _, _, _ => None
      end
  | _ => None
  end.

Definition validate_ATSResult (j : json) : option ATSResult :=
  match j with
  | JObject members =>
      match required (lit "score") validate_int members,
            required (lit "summary") validate_str members,
            required (lit "feedback") validate_Feedback members with
      | Some sc, Some su, Some fb =>
          Some {| score := sc; summary := su; feedback := fb |}
      | _, _, _ => None
      end
  | _ => None
  end.
End Validation.

(** ** Exceptions

    Only instances of [Exception] are modelled, that is, what an
    [except Exception] clause can see; interpreter signals that derive from
    [BaseException] alone are not failures of the program.  The classes
    the handlers tell apart are listed, [OtherException] standing for any
    class unrelated to them. *)

Inductive exc_class : Type :=
| APIError
| JSONDecodeError
| ValidationError
| ValueError
| OtherException.

Record exn : Type := {
  exn_class : exc_class;
  exn_str : str           (* what [{e}] formats to *)
}.

(** [issubclass]: [json.JSONDecodeError] and pydantic's [ValidationError]
    derive from [ValueError]; [APIError] derives from [Exception] only. *)
Definition issubclass (c d : exc_class) : bool :=
  match c, d with
  | APIError, APIError => true
  | JSONDecodeError, (JSONDecodeError | ValueError) => true
  | ValidationError, (ValidationError | ValueError) => true
  | ValueError, ValueError => true
  | OtherException, OtherException => true
  | _, _ => false
  end.

Definition isinstance (e : exn) (c : exc_class) : bool :=
  issubclass (exn_class e) c.

(** ** Requests to the model *)

Record Content : Type := {
  role : str;
  parts : list str        (* the [text] of each [types.Part] *)
}.

Record GenerateContentConfig : Type := {
  response_mime_type : str;
  response_json_schema : json;
  system_instruction : str;
  temperature : Q
}.

Record request : Type := {
  model : str;
  contents : list Content;
  config : GenerateContentConfig
}.

(** What [client.models.generate_content(...)] followed by [response.text]
    gives: the raw text of the reply, or an exception. *)
Inductive api_outcome : Type :=
| Response (text : str)
| Failure (e : exn).

(** The client handle.  The service behind it is free to answer each
    request as it likes: the answer depends on how many requests were
    sent before and on the request itself. *)
Record Client : Type := {
  respond : nat -> request -> api_outcome
}.

(** ** Effects *)

Inductive element : Type :=
| title | subheader | markdown | text_ | error | warning | info | success.

Inductive event : Type :=
| St (what : element) (body : str)        (* [st.error(body)], ... *)
| ScoreCard (colour : str) (percent : Z)  (* the HTML card of [display_report] *)
| Sleep (seconds : Z)                     (* [time.sleep(seconds)] *)
| GenerateContent (req : request).        (* one request sent to the model *)

(** An entry of [st.cache_resource]: the value the function returned and
    the elements it wrote, which are written again on a cache hit. *)
Record cache_entry : Type := {
  cached_value : option Client;
  cached_elements : list (element * str)
}.

Record world : Type := {
  trace : list event;            (* what has happened, oldest first *)
  requests : nat;                (* requests sent to the model so far *)
  resource_cache : option cache_entry
}.

Definition emit (e : event) (w : world) : world :=
  {| trace := trace w ++ [e];
     requests := requests w;
     resource_cache := resource_cache w |}.

(** The world after one more request has gone out. *)
Definition send (req : request) (w : world) : world :=
  {| trace := trace w ++ [GenerateContent req];
     requests := S (requests w);
     resource_cache := resource_cache w |}.

Inductive result (A : Type) : Type :=
| Return (a : A)
| Raise (e : exn).
Arguments Return {A} a.
Arguments Raise {A} e.

Definition M (A : Type) : Type := world -> result A * world.

Definition ret {A : Type} (a : A) : M A := fun w => (Return a, w).

Definition raise {A : Type} (e : exn) : M A := fun w => (Raise e, w).

Definition bind {A B : Type} (c : M A) (k : A -> M B) : M B :=
  fun w =>
    match c w with
    | (Return a, w') => k a w'
    | (Raise e, w') => (Raise e, w')
    end.

(** [try: body except ... as e: handler e] *)
Definition try_except {A : Type} (body : M A) (handler : exn -> M A) : M A :=
  fun w =>
    match body w with
    | (Return a, w') => (Return a, w')
    | (Raise e, w') => handler e w'
    end.

Declare Scope py_scope.
Delimit Scope py_scope with py.
Notation "x <- c ;; k" := (bind c (fun x => k))
  (at level 61, c at next level, right associativity) : py_scope.
Notation "c ;; k" := (bind c (fun _ => k))
  (at level 61, right associativity) : py_scope.
Local Open Scope py_scope.

Definition perform (e : event) : M unit :=
  fun w => (Return tt, emit e w).

Definition st (what : element) (body : str) : M unit :=
  perform (St what body).

Definition time_sleep (seconds : Z) : M unit :=
  perform (Sleep seconds).

(** [client.models.generate_content(model=..., contents=..., config=...)]
    and the read of [response.text]. *)
Definition generate_content (client : Client) (req : request) : M str :=
  fun w =>
    match respond client (requests w) req with
    | Response text => (Return text, send req w)
    | Failure e => (Raise e, send req w)
    end.

(** ** Loops *)

(** [range(n)] *)
Definition range (n : Z) : list Z :=
  List.map Z.of_nat (seq 0 (Z.to_nat n)).

(** How one pass through the body of a [for] ends: the function returns,
    or control reaches the end of the body and the loop goes on. *)
Inductive flow (A : Type) : Type :=
| Returns (v : A)
| Next.
Arguments Returns {A} v.
Arguments Next {A}.

Fixpoint for_in {A : Type} (items : list Z) (body : Z -> M (flow A))
    (after : M A) : M A :=
  match items with
  | [] => after
  | i :: rest =>
      f <- body i ;;
      match f with
      | Returns v => ret v
      | Next => for_in rest body after
      end
  end.

(** ** 2. Core logic *)

Section Analysis.
Context {P : Pydantic}.

(** Decoding followed by validation against [ATSResult]: all or nothing. *)
Definition validate_json (json_data : str) : option ATSResult :=
  match json_loads json_data with
  | Some j => validate_ATSResult j
  | None => None
  end.

(** [ATSResult.model_validate_json(json_data)]: the report, or a
    [ValidationError] when the text does not decode or does not validate. *)
Definition model_validate_json (json_data : str) : M ATSResult :=
  match validate_json json_data with
  | Some ats_report => ret ats_report
  | None =>
      raise {| exn_class := ValidationError;
               exn_str := validation_error_str json_data |}
  end.

Definition system_prompt : str :=
  lit "You are a world-class Applicant Tracking System (ATS) analyst with 20 years of "
  ++ lit "experience. Your task is to evaluate a candidate's resume against a specific job "
  ++ lit "description. Analyze the documents across three core areas: Keyword Match, "
  ++ lit "Content Impact (quantifiable achievements, action verbs), and Formatting/Structure "
  ++ lit "(ATS parsability, standard headings). Generate a compatibility score from 0 to 100 "
  ++ lit "and provide detailed, actionable feedback. Ensure all feedback is professional and "
  ++ lit "constructive. The output MUST adhere strictly to the provided JSON schema.".

(** The f-string of [user_query], line by line. *)
Definition user_query (resume_text jd_text : str) : str :=
  nl
  ++ lit "    Analyze the following RESUME against the JOB DESCRIPTION." ++ nl
  ++ nl
  ++ lit "    ---" ++ nl
  ++ lit "    RESUME TEXT:" ++ nl
  ++ lit "    " ++ resume_text ++ nl
  ++ lit "    ---" ++ nl
  ++ lit "    JOB DESCRIPTION:" ++ nl
  ++ lit "    " ++ jd_text ++ nl
  ++ lit "    ".

Definition analysis_request (resume_text jd_text : str) : request :=
  {| model := lit "gemini-2.5-flash-preview-09-2025";
     contents :=
       [ {| role := lit "user"; parts := [user_query resume_text jd_text] |} ];
     config :=
       {| response_mime_type := lit "application/json";
          response_json_schema := ATSResult_model_json_schema;
          system_instruction := system_prompt;
          temperature := 2 # 10 |} |}.

Definition max_retries : Z := 3.

Definition exhausted_error (e : exn) : str :=
  lit "Failed to get a response after " ++ str_of_int max_retries
  ++ lit " attempts. API Error: " ++ exn_str e.

Definition parse_error (e : exn) : str :=
  lit "Failed to parse AI response (Invalid JSON structure). Error: "
  ++ exn_str e.

Definition unexpected_error (e : exn) : str :=
  lit "An unexpected error occurred during analysis: " ++ exn_str e.

(** The body of the retry loop for one value of [attempt]. *)
Definition attempt_body (client : Client) (req : request) (attempt : Z)
    : M (flow (option ATSResult)) :=
  try_except
    (json_data <- generate_content client req ;;
     ats_report <- model_validate_json json_data ;;
     ret (Returns (Some ats_report)))
    (fun e =>
       if isinstance e APIError then
         if (attempt <? max_retries - 1)%Z then
           let wait_time := (2 ^ attempt)%Z in
           time_sleep wait_time ;;
           ret Next
         else
           st error (exhausted_error e) ;;
           ret (Returns None)
       else if isinstance e JSONDecodeError || isinstance e ValueError then
         st error (parse_error e) ;;
         ret (Returns None)
       else
         st error (unexpected_error e) ;;
         ret (Returns None)).

Definition analyze_resume_ats (client : Client) (resume_text jd_text : str)
    : M (option ATSResult) :=
  let req := analysis_request resume_text jd_text in
  for_in (range max_retries) (attempt_body client req) (ret None).

End Analysis.

(** ** Helper for PDF extraction *)

(** A page of the reader: what [page.extract_text()] gives. *)
Record Page : Type := {
  extract_text : result str
}.

(** An uploaded file: what [PdfReader(uploaded_file)] gives, the pages of
    the document or an exception. *)
Record UploadedFile : Type := {
  PdfReader : result (list Page)
}.

(** A call into a library that returns or raises without other effect. *)
Definition call {A : Type} (r : result A) : M A := fun w => (r, w).

Definition page_warning : str :=
  [9888%N; 65039%N]
  ++ lit " Warning: Could not extract text from one or more pages. Ensure your PDF is text-selectable, not an image scan.".

Definition no_text_error : str :=
  [10060%N]
  ++ lit " Failed to extract any readable text from the PDF. Is it an image-only file?".

(** [for page in reader.pages: ...], with the value of [text] on entry. *)
Fixpoint for_page (pages : list Page) (text : str) : M str :=
  match pages with
  | [] => ret text
  | page :: rest =>
      page_text <- call (extract_text page) ;;
      if truthy page_text then
        for_page rest (text ++ (page_text ++ nl))
      else
        st warning page_warning ;;
        for_page rest text
  end.

Definition extract_text_from_pdf (uploaded_file : UploadedFile)
    : M (option str) :=
  try_except
    (pages <- call (PdfReader uploaded_file) ;;
     text <- for_page pages [] ;;
     if negb (truthy (strip text)) then
       st error no_text_error ;;
       ret None
     else
       ret (Some text))
    (fun e =>
       st error ([10060%N] ++ lit " An error occurred during PDF reading: "
                 ++ exn_str e) ;;
       ret None).

(** ** Client construction *)

(** What one run of the script reads from its surroundings: the
    environment (after [dotenv.load_dotenv()]), the outcome of
    [genai.Client()], and the state of the three widgets. *)
Record session : Type := {
  GEMINI_API_KEY : option str;
  genai_Client : result Client;
  file_uploader : option UploadedFile;
  text_area : str;
  button : bool
}.

Definition key_not_found_error : str :=
  [10060%N] ++ lit " Gemini API Key not found!".

Definition key_not_found_info : str :=
  lit "Please set the GEMINI_API_KEY environment variable (or ensure it's loaded from your .env file) to run the analysis.".

(** [not api_key]: the variable is unset or set to the empty string. *)
Definition key_missing (api_key : option str) : bool :=
  match api_key with
  | None => true
  | Some k => negb (truthy k)
  end.

(** The body of [get_gemini_client]. *)
Definition get_gemini_client_body (s : session) : M (option Client) :=
  let api_key := GEMINI_API_KEY s in
  if key_missing api_key then
    st error key_not_found_error ;;
    st info key_not_found_info ;;
    ret None
  else
    try_except
      (client <- call (genai_Client s) ;;
       ret (Some client))
      (fun e =>
         st error ([10060%N] ++ lit " Failed to initialize Gemini Client: "
                   ++ exn_str e) ;;
         ret None).

(** The page elements among the events of a trace. *)
Fixpoint elements (t : list event) : list (element * str) :=
  match t with
  | [] => []
  | St what body :: r => (what, body) :: elements r
  | _ :: r => elements r
  end.

Definition written (els : list (element * str)) : list event :=
  List.map (fun p => St (fst p) (snd p)) els.

Definition replay (els : list (element * str)) (w : world) : world :=
  {| trace := trace w ++ written els;
     requests := requests w;
     resource_cache := resource_cache w |}.

Definition store (entry : cache_entry) (w : world) : world :=
  {| trace := trace w;
     requests := requests w;
     resource_cache := Some entry |}.

(** [@st.cache_resource]: the first call runs the function and keeps its
    value together with the elements it wrote; later calls return the kept
    value and write the kept elements again.  A call that raises keeps
    nothing. *)
Definition cache_resource (f : M (option Client)) : M (option Client) :=
  fun w =>
    match resource_cache w with
    | Some entry => (Return (cached_value entry), replay (cached_elements entry) w)
    | None =>
        match f w with
        | (Return v, w') =>
            (Return v,
             store {| cached_value := v;
                      cached_elements :=
                        elements (skipn (List.length (trace w)) (trace w')) |} w')
        | (Raise e, w') => (Raise e, w')
        end
    end.

Definition get_gemini_client (s : session) : M (option Client) :=
  cache_resource (get_gemini_client_body s).

(** ** 3. Streamlit UI *)

Definition get_score_color_style (score : Z) : str :=
  if (score >=? 80)%Z then lit "green"
  else if (score >=? 60)%Z then lit "orange"
  else lit "red".

Definition display_report (report : ATSResult) : M unit :=
  st markdown (lit "---") ;;
  st subheader ([9989%N] ++ lit " ATS Compatibility Report") ;;
  perform (ScoreCard (get_score_color_style (score report)) (score report)) ;;
  st success (lit "**Summary:** " ++ summary report) ;;
  st markdown (lit "---") ;;
  st markdown (lit "**Focus on integrating specific keywords from the Job Description.**") ;;
  st info (keywordMatch (feedback report)) ;;
  st markdown (lit "**Ensure every bullet point highlights quantifiable achievements.**") ;;
  st info (contentImpact (feedback report)) ;;
  st markdown (lit "**Maintain standard section headers and avoid complex visual elements.**") ;;
  st info (formattingAndStructure (feedback report)).

Definition app_title : str :=
  [129302%N] ++ lit " AI-Powered ATS Resume Scorer".

Definition extracted_info : str :=
  [9989%N]
  ++ lit " Text extracted successfully. You can review the extracted text below.".

Definition upload_error : str :=
  lit "Please upload a PDF file for your resume.".

Definition could_not_proceed : str :=
  lit "Could not proceed: Failed to extract readable text from the uploaded PDF.".

Definition no_jd_error : str :=
  lit "Please enter the Job Description text.".

Section App.
Context {P : Pydantic}.

(** The part of [main_app] under [if st.button(...)]. *)
Definition on_button (client : Client) (uploaded_file : option UploadedFile)
    (resume_text : option str) (jd_text : str) : M unit :=
  match uploaded_file, resume_text with
  | None, _ =>
      st error upload_error
  | Some _, None =>
      st error could_not_proceed
  | Some _, Some resume =>
      if negb (truthy resume) then
        st error could_not_proceed
      else if negb (truthy jd_text) then
        st error no_jd_error
      else
        report <- analyze_resume_ats client resume jd_text ;;
        match report with
        | Some r => display_report r
        | None => ret tt
        end
  end.

(** One run of the script.  Calls that only lay out the page
    ([set_page_config], [columns], [spinner], [expander]) write nothing to
    the trace, and the widgets are read from the session. *)
Definition main_app (s : session) : M unit :=
  st title app_title ;;
  client <- get_gemini_client s ;;
  match client with
  | None => ret tt
  | Some client =>
      let uploaded_file := file_uploader s in
      resume_text <-
        match uploaded_file with
        | None => ret None
        | Some f =>
            resume_text <- extract_text_from_pdf f ;;
            match resume_text with
            | Some t =>
                if truthy t then
                  st info extracted_info ;;
                  st text_ t ;;
                  ret resume_text
                else ret resume_text
            | None => ret resume_text
            end
        end ;;
      let jd_text := text_area s in
      st markdown (lit "---") ;;
      if button s then on_button client uploaded_file resume_text jd_text
      else ret tt
  end.

(** Successive runs of the script in one process; the resource cache
    lives across them. *)
Fixpoint reruns (sessions : list session) : M unit :=
  match sessions with
  | [] => ret tt
  | s :: rest => main_app s ;; reruns rest
  end.

End App.

Definition fresh : world :=
  {| trace := []; requests := 0; resource_cache := None |}.

(** ** A library instance for the examples

    A decoder for JSON text (RFC 8259: white space, the three literals,
    numbers, strings with their escapes, arrays, objects; an integer of
    more than 4300 digits is refused), the coercions of the lax mode for
    [int] fields, and a fixed error text.  The theorems hold for every
    instance; this one serves to run the script on concrete replies. *)

Module Reference.

Definition is_ws (c : N) : bool :=
  ((c =? 32) || (c =? 9) || (c =? 10) || (c =? 13))%N.

Fixpoint skip_ws (s : str) : str :=
  match s with
  | [] => []
  | c :: r => if is_ws c then skip_ws r else s
  end.

Definition is_digit (c : N) : bool := ((48 <=? c) && (c <=? 57))%N.

(** The character an escape [\c] stands for. *)
Definition unescape (c : N) : option N :=
  if (c =? 34)%N then Some 34%N            (* quote *)
  else if (c =? 92)%N then Some 92%N       (* backslash *)
  else if (c =? 47)%N then Some 47%N       (* slash *)
  else if (c =? 98)%N then Some 8%N        (* b *)
  else if (c =? 102)%N then Some 12%N      (* f *)
  else if (c =? 110)%N then Some 10%N      (* n *)
  else if (c =? 114)%N then Some 13%N      (* r *)
  else if (c =? 116)%N then Some 9%N       (* t *)
  else None.

(** The rest of a string after its opening quote: the decoded characters
    and what follows the closing quote. *)
Definition hex_value (c : N) : option N :=
  if ((48 <=? c) && (c <=? 57))%N then Some (c - 48)%N
  else if ((97 <=? c) && (c <=? 102))%N then Some (c - 87)%N
  else if ((65 <=? c) && (c <=? 70))%N then Some (c - 55)%N
  else None.

(** The number written by four hexadecimal digits. *)
Definition hex4 (a b c d : N) : option N :=
  match hex_value a, hex_value b, hex_value c, hex_value d with
  | Some x, Some y, Some z, Some t =>
      Some (4096 * x + 256 * y + 16 * z + t)%N
  | _, _, _, _ => None
  end.

Definition is_high_surrogate (u : N) : bool :=
  ((55296 <=? u) && (u <=? 56319))%N.

Definition is_low_surrogate (u : N) : bool :=
  ((56320 <=? u) && (u <=? 57343))%N.

(** The rest of a string after its opening quote: the decoded characters
    and what follows the closing quote.  An escape [\uXXXX] gives that
    code point; a high surrogate must be followed by the escape of a low
    one, and the two give one code point; a lone surrogate is refused. *)
Fixpoint string_body (s : str) (acc : str) : option (str * str) :=
  match s with
  | [] => None
  | c :: r =>
      if (c =? 34)%N then Some (rev acc, r)
      else if (c =? 92)%N then
        match r with
        | [] => None
        | e :: r' =>
            if (e =? 117)%N then
              match r' with
              | h1 :: h2 :: h3 :: h4 :: r4 =>
                  match hex4 h1 h2 h3 h4 with
                  | Some u =>
                      if is_high_surrogate u then
                        match r4 with
                        | b :: v :: l1 :: l2 :: l3 :: l4 :: r10 =>
                            if ((b =? 92) && (v =? 117))%N then
                              match hex4 l1 l2 l3 l4 with
                              | Some lo =>
                                  if is_low_surrogate lo then
                                    string_body r10
                                      ((65536 + 1024 * (u - 55296)
                                        + (lo - 56320))%N :: acc)
                                  else None
                              | None => None
                              end
                            else None
                        | _ => None
                        end
                      else if is_low_surrogate u then None
                      else string_body r4 (u :: acc)
                  | None => None
                  end
              | _ => None
              end
            else
              match unescape e with
              | Some d => string_body r' (d :: acc)
              | None => None
              end
        end
      else if (c <? 32)%N then None
      else string_body r (c :: acc)
  end.

Fixpoint take_digits (s : str) (acc : str) : str * str :=
  match s with
  | [] => (rev acc, [])
  | c :: r => if is_digit c then take_digits r (c :: acc) else (rev acc, s)
  end.

Definition nat_value (ds : str) : Z :=
  fold_left (fun v d => (10 * v + Z.of_N (d - 48))%Z) ds 0%Z.

(** A fraction [.digits] at the head of [s], if one is there. *)
Definition fraction (s : str) : option (str * str) :=
  match s with
  | c :: r =>
      if (c =? 46)%N then
        match take_digits r [] with
        | ([], _) => None
        | (ds, r') => Some (c :: ds, r')
        end
      else Some ([], s)
  | [] => Some ([], s)
  end.

(** An exponent [e], [E] with optional sign and digits, if one is there. *)
Definition exponent (s : str) : option (str * str) :=
  match s with
  | c :: r =>
      if ((c =? 101) || (c =? 69))%N then
        let (sign, r1) :=
          match r with
          | d :: r' => if ((d =? 43) || (d =? 45))%N then ([d], r') else ([], r)
          | [] => ([], r)
          end in
        match take_digits r1 [] with
        | ([], _) => None
        | (ds, r2) => Some (c :: sign ++ ds, r2)
        end
      else Some ([], s)
  | [] => Some ([], s)
  end.

(** A number: sign, integer part without leading zero, and either nothing
    (an integer, of 4300 digits at most) or a fraction or exponent (kept
    as written). *)
Definition number (s : str) : option (json * str) :=
  let (sign, s1) :=
    match s with
    | c :: r => if (c =? 45)%N then ([c], r) else ([], s)
    | [] => ([], s)
    end in
  match take_digits s1 [] with
  | ([], _) => None
  | (d :: more, s2) =>
      if (d =? 48)%N && truthy more then None
      else
        match fraction s2 with
        | Some (fr, s3) =>
            match exponent s3 with
            | Some (ex, s4) =>
                if truthy fr || truthy ex then
                  Some (JFloat (sign ++ (d :: more) ++ fr ++ ex), s4)
                else if (4300 <? List.length (d :: more))%nat then None
                else if truthy sign then Some (JInt (- nat_value (d :: more))%Z, s4)
                else Some (JInt (nat_value (d :: more)), s4)
            | None => None
            end
        | None => None
        end
  end.

Fixpoint starts_with (p s : str) : option str :=
  match p, s with
  | [], _ => Some s
  | x :: p', y :: s' => if (x =? y)%N then starts_with p' s' else None
  | _ :: _, [] => None
  end.

(** A later binding of a name replaces the value of the earlier one. *)
Fixpoint set_member (k : str) (v : json) (members : list (str * json))
    : list (str * json) :=
  match members with
  | [] => [(k, v)]
  | (k', v') :: rest =>
      if str_eqb k' k then (k', v) :: rest
      else (k', v') :: set_member k v rest
  end.

Fixpoint value (fuel : nat) (s : str) : option (json * str) :=
  match fuel with
  | O => None
  | S fuel' =>
      match skip_ws s with
      | [] => None
      | c :: r =>
          if (c =? 123)%N then              (* object *)
            match skip_ws r with
            | c' :: r' =>
                if (c' =? 125)%N then Some (JObject [], r')
                else members fuel' r []
            | [] => None
            end
          else if (c =? 91)%N then          (* array *)
            match skip_ws r with
            | c' :: r' =>
                if (c' =? 93)%N then Some (JArray [], r')
                else items fuel' r []
            | [] => None
            end
          else if (c =? 34)%N then
            match string_body r [] with
            | Some (t, r') => Some (JStr t, r')
            | None => None
            end
          else if (c =? 116)%N then
            option_map (fun r' => (JBool true, r')) (starts_with (lit "true") (c :: r))
          else if (c =? 102)%N then
            option_map (fun r' => (JBool false, r')) (starts_with (lit "false") (c :: r))
          else if (c =? 110)%N then
            option_map (fun r' => (JNull, r')) (starts_with (lit "null") (c :: r))
          else number (c :: r)
      end
  end
with items (fuel : nat) (s : str) (acc : list json) : option (json * str) :=
  match fuel with
  | O => None
  | S fuel' =>
      match value fuel' s with
      | Some (v, r) =>
          match skip_ws r with
          | c :: r' =>
              if (c =? 44)%N then items fuel' r' (v :: acc)
              else if (c =? 93)%N then Some (JArray (rev (v :: acc)), r')
              else None
          | [] => None
          end
      | None => None
      end
  end
with members (fuel : nat) (s : str) (acc : list (str * json))
    : option (json * str) :=
  match fuel with
  | O => None
  | S fuel' =>
      match skip_ws s with
      | q :: r0 =>
          if (q =? 34)%N then
            match string_body r0 [] with
            | Some (k, r1) =>
                match skip_ws r1 with
                | c :: r2 =>
                    if (c =? 58)%N then
                      match value fuel' r2 with
                      | Some (v, r3) =>
                          match skip_ws r3 with
                          | d :: r4 =>
                              if (d =? 44)%N then members fuel' r4 (set_member k v acc)
                              else if (d =? 125)%N then
                                Some (JObject (set_member k v acc), r4)
                              else None
                          | [] => None
                          end
                      | None => None
                      end
                    else None
                | [] => None
                end
            | None => None
            end
          else None
      | [] => None
      end
  end.

(** A whole text: one value, then white space only. *)
Definition decode (s : str) : option json :=
  match value (S (List.length s)) s with
  | Some (v, r) =>
      match skip_ws r with
      | [] => Some v
      | _ :: _ => None
      end
  | None => None
  end.

Definition string_schema : json := JObject [(lit "type", JStr (lit "string"))].

Definition schema : json :=
  JObject
    [ (lit "properties",
       JObject
         [ (lit "score", JObject [(lit "type", JStr (lit "integer"))]);
           (lit "summary", string_schema);
           (lit "feedback",
            JObject
              [ (lit "properties",
                 JObject [ (lit "keywordMatch", string_schema);
                           (lit "contentImpact", string_schema);
                           (lit "formattingAndStructure", string_schema) ]);
                (lit "type", JStr (lit "object")) ]) ]);
      (lit "required",
       JArray [JStr (lit "score"); JStr (lit "summary"); JStr (lit "feedback")]);
      (lit "title", JStr (lit "ATSResult"));
      (lit "type", JStr (lit "object")) ].

(** The integer a string stands for in lax mode: white space around it
    is dropped, a sign may lead, digits follow, and a point followed by
    zeros only may end it. *)
Definition int_of_str (s : str) : option Z :=
  let (neg, s1) :=
    match strip s with
    | c :: r =>
        if (c =? 45)%N then (true, r)
        else if (c =? 43)%N then (false, r)
        else (false, c :: r)
    | [] => (false, [])
    end in
  match take_digits s1 [] with
  | ([], _) => None
  | (ds, rest) =>
      match rest with
      | [] => Some (if neg then - nat_value ds else nat_value ds)%Z
      | c :: zeros =>
          if (c =? 46)%N && forallb (fun z => (z =? 48)%N) zeros
          then Some (if neg then - nat_value ds else nat_value ds)%Z
          else None
      end
  end.

(** The integer a number written with a fraction or an exponent stands
    for in lax mode, when its decimal value is a whole number of
    magnitude up to 2^53 (where the double that holds it is exact). *)
Definition int_of_float (lexeme : str) : option Z :=
  let (neg, s1) :=
    match lexeme with
    | c :: r => if (c =? 45)%N then (true, r) else (false, lexeme)
    | [] => (false, lexeme)
    end in
  let (ds, s2) := take_digits s1 [] in
  let (fr, s3) :=
    match s2 with
    | c :: r => if (c =? 46)%N then take_digits r [] else ([], s2)
    | [] => ([], s2)
    end in
  let ex : Z :=
    match s3 with
    | _ :: c :: r =>
        if (c =? 45)%N then - nat_value r
        else if (c =? 43)%N then nat_value r
        else nat_value (c :: r)
    | _ => 0
    end%Z in
  let mantissa := nat_value (ds ++ fr) in
  let scale := (ex - Z.of_nat (List.length fr))%Z in
  let whole : option Z :=
    if (0 <=? scale)%Z then Some (mantissa * 10 ^ scale)%Z
    else if (mantissa mod 10 ^ (- scale) =? 0)%Z
         then Some (mantissa / 10 ^ (- scale))%Z
         else None in
  match whole with
  | Some v =>
      if (v <=? 2 ^ 53)%Z then Some (if neg then - v else v)%Z else None
  | None => None
  end.

(** What the lax mode makes of a value that is not a JSON integer. *)
Definition coerce_int (j : json) : option Z :=
  match j with
  | JBool b => Some (if b then 1 else 0)%Z
  | JStr s => int_of_str s
  | JFloat lexeme => int_of_float lexeme
  | _ => None
  end.

#[export] Instance library : Pydantic := {
  json_loads := decode;
  lax_int := coerce_int;
  validation_error_str := fun _ => lit "1 validation error for ATSResult";
  ATSResult_model_json_schema := schema
}.

(** JSON text is written here with an apostrophe in place of each
    double quote. *)
Definition text (s : string) : str :=
  List.map (fun c => if (c =? 39)%N then 34%N else c) (lit s).
Arguments text s%_string.

End Reference.

(** ** Reading a trace *)

Definition is_request (e : event) : bool :=
  match e with
  | GenerateContent _ => true
  | _ => false
  end.

(** How many requests a trace holds. *)
Definition sent (t : list event) : nat := List.length (filter is_request t).

(** The messages given to [st.error], in order. *)
Fixpoint errors (t : list event) : list str :=
  match t with
  | [] => []
  | St error m :: r => m :: errors r
  | _ :: r => errors r
  end.

(** A string made of white space only (the empty string included). *)
Definition blank (s : str) : bool := forallb isspace s.

(** A page whose extraction gives [s]. *)
Definition text_page (s : str) : Page := {| extract_text := Return s |}.

(** The members of the JSON object of a feedback section. *)
Definition Feedback_members (f : Feedback) : list (str * json) :=
  [ (lit "keywordMatch", JStr (keywordMatch f));
    (lit "contentImpact", JStr (contentImpact f));
    (lit "formattingAndStructure", JStr (formattingAndStructure f)) ].

(** The members of the JSON object of a report, [fb] being the JSON of
    its feedback section. *)
Definition ATSResult_members (r : ATSResult) (fb : json) : list (str * json) :=
  [ (lit "score", JInt (score r));
    (lit "summary", JStr (summary r));
    (lit "feedback", fb) ].

(** The JSON object that holds exactly the fields of a report, in the
    order of the class. *)
Definition to_json (r : ATSResult) : json :=
  JObject (ATSResult_members r (JObject (Feedback_members (feedback r)))).

(** [j] conforms exactly to the schema and carries the values of [r]: an
    object with the three members of a report, in any order, whose
    [feedback] is an object with the three members of a feedback section,
    in any order. *)
Definition conforming (j : json) (r : ATSResult) : Prop :=
  exists members fb_members,
    j = JObject members
    /\ Permutation members (ATSResult_members r (JObject fb_members))
    /\ Permutation fb_members (Feedback_members (feedback r)).

(** The trace of [k] attempts that each failed and were followed by their
    back-off sleep. *)
Definition backoff (req : request) (k : nat) : list event :=
  flat_map (fun attempt => [GenerateContent req; Sleep (2 ^ attempt)])
           (List.map Z.of_nat (seq 0 k)).

(** The first [k] answers of the service, counted from the state of [w],
    are [APIError]s. *)
Definition transient_failures (client : Client) (req : request) (w : world)
    (k : nat) : Prop :=
  forall i, (i < k)%nat ->
    exists e, respond client (requests w + i) req = Failure e
              /\ isinstance e APIError = true.

(** The exception [model_validate_json] raises on a rejected text. *)
Definition rejected `{Pydantic} (json_data : str) : exn :=
  {| exn_class := ValidationError;
     exn_str := validation_error_str json_data |}.

(** The world after [k] failed attempts and their sleeps. *)
Definition retried (req : request) (k : nat) (w : world) : world :=
  {| trace := trace w ++ backoff req k;
     requests := requests w + k;
     resource_cache := resource_cache w |}.

(** What [extract_text_from_pdf] gathers from the texts of the pages:
    each non-empty one followed by a line feed. *)
Definition gathered (texts : list str) : str :=
  List.concat (List.map (fun s => s ++ nl) (filter truthy texts)).

(** The warnings it writes: one for each page without text. *)
Definition warnings (texts : list str) : list event :=
  List.map (fun _ => St warning page_warning)
           (filter (fun s => negb (truthy s)) texts).

(** What a run of the script writes when the key is missing. *)
Definition key_not_found_run : list event :=
  [ St title app_title;
    St error key_not_found_error;
    St info key_not_found_info ].

(** The cache entry the factory leaves when the key is missing. *)
Definition missing_key_entry : cache_entry :=
  {| cached_value := None;
     cached_elements := [ (error, key_not_found_error);
                          (info, key_not_found_info) ] |}.

(** A computation that returns and sends no request, whatever the world
    it starts in. *)
Definition quiet {A : Type} (c : M A) : Prop :=
  forall w, exists (a : A) (w' : world) (t : list event),
    c w = (Return a, w')
    /\ trace w' = trace w ++ t
    /\ sent t = 0%nat
    /\ requests w' = requests w.

(** The world [w] after the events [t] have happened in it. *)
Definition extend (t : list event) (w : world) : world :=
  {| trace := trace w ++ t;
     requests := requests w + sent t;
     resource_cache := resource_cache w |}.

(** ** Sample data *)

(** A client whose service gives the listed answers in turn, and drops
    the connection once they are used up. *)
Definition scripted (answers : list api_outcome) : Client :=
  {| respond := fun n _ =>
       nth n answers
           (Failure {| exn_class := OtherException;
                       exn_str := lit "connection closed" |}) |}.

Definition sample_reply : str :=
  Reference.text
    "{'score':87,'summary':'S','feedback':{'keywordMatch':'a','contentImpact':'b','formattingAndStructure':'c'}}".

Definition sample_report : ATSResult :=
  {| score := 87;
     summary := lit "S";
     feedback := {| keywordMatch := lit "a";
                    contentImpact := lit "b";
                    formattingAndStructure := lit "c" |} |}.

(** The request built for a sample submission. *)
Definition sample_request : request :=
  analysis_request (P := Reference.library) (lit "resume") (lit "job").

(** A reply that has the shape of the schema and a score of 150. *)
Definition over_reply : str :=
  Reference.text
    "{'score':150,'summary':'S','feedback':{'keywordMatch':'a','contentImpact':'b','formattingAndStructure':'c'}}".

(** A document whose first page gives text and whose second page makes
    the reader raise. *)
Definition damaged_pdf : UploadedFile :=
  {| PdfReader :=
       Return [ text_page (lit "Jane Doe");
                {| extract_text :=
                     Raise {| exn_class := OtherException;
                              exn_str := lit "Unexpected end of stream" |} |} ] |}.

(** A scanned document: three pages, one of them with a stray space. *)
Definition scanned_pdf : UploadedFile :=
  {| PdfReader := Return (List.map text_page [[]; lit " "; []]) |}.

(** A session with a key, a working client and the given widgets. *)
Definition ready_session (client : Client) (file : option UploadedFile)
    (jd : str) (pressed : bool) : session :=
  {| GEMINI_API_KEY := Some (lit "secret");
     genai_Client := Return client;
     file_uploader := file;
     text_area := jd;
     button := pressed |}.

(** A session without a key. *)
Definition keyless_session (client : Client) (file : option UploadedFile)
    (jd : str) (pressed : bool) : session :=
  {| GEMINI_API_KEY := None;
     genai_Client := Return client;
     file_uploader := file;
     text_area := jd;
     button := pressed |}.

(** A rate-limit answer of the service. *)
Definition rate_limited : exn :=
  {| exn_class := APIError;
     exn_str := lit "429 RESOURCE_EXHAUSTED" |}.

(** ** Further vocabulary *)

(** The sleeps of a trace, in order. *)
Fixpoint slept (t : list event) : list Z :=
  match t with
  | [] => []
  | Sleep n :: r => n :: slept r
  | _ :: r => slept r
  end.

(** The requests of a trace, in order. *)
Fixpoint requested (t : list event) : list request :=
  match t with
  | [] => []
  | GenerateContent req :: r => req :: requested r
  | _ :: r => requested r
  end.

(** What [display_report] writes for a report. *)
Definition report_elements (r : ATSResult) : list event :=
  [ St markdown (lit "---");
    St subheader ([9989%N] ++ lit " ATS Compatibility Report");
    ScoreCard (get_score_color_style (score r)) (score r);
    St success (lit "**Summary:** " ++ summary r);
    St markdown (lit "---");
    St markdown (lit "**Focus on integrating specific keywords from the Job Description.**");
    St info (keywordMatch (feedback r));
    St markdown (lit "**Ensure every bullet point highlights quantifiable achievements.**");
    St info (contentImpact (feedback r));
    St markdown (lit "**Maintain standard section headers and avoid complex visual elements.**");
    St info (formattingAndStructure (feedback r)) ].

(** The message of [extract_text_from_pdf] for an exception. *)
Definition pdf_reading_error (e : exn) : str :=
  [10060%N] ++ lit " An error occurred during PDF reading: " ++ exn_str e.

(** The message of [get_gemini_client] for a failed construction. *)
Definition init_failed_error (e : exn) : str :=
  [10060%N] ++ lit " Failed to initialize Gemini Client: " ++ exn_str e.

(** The lines the prompt puts between the resume and the job
    description. *)
Definition jd_separator : str :=
  nl ++ lit "    ---" ++ nl ++ lit "    JOB DESCRIPTION:" ++ nl ++ lit "    ".

(** A session whose key is set and whose client constructor raises. *)
Definition failing_session (e : exn) (file : option UploadedFile)
    (jd : str) (pressed : bool) : session :=
  {| GEMINI_API_KEY := Some (lit "secret");
     genai_Client := Raise e;
     file_uploader := file;
     text_area := jd;
     button := pressed |}.

(** A resume of two pages of text. *)
Definition resume_pdf : UploadedFile :=
  {| PdfReader := Return (List.map text_page [lit "Jane Doe"; lit "Python"]) |}.

(** A dropped connection, as the HTTP layer reports it. *)
Definition connect_error : exn :=
  {| exn_class := OtherException;
     exn_str := lit "All connection attempts failed" |}.

(** The computation [c], started in [w], returns [a] in [w'] after the
    events [t], the count of requests following the trace. *)
Definition run_of {A : Type} (c : M A) (w : world) (a : A)
    (t : list event) (w' : world) : Prop :=
  c w = (Return a, w')
  /\ trace w' = trace w ++ t
  /\ requests w' = (requests w + sent t)%nat.

(** What a run of the script writes when the cache holds no client. *)
Definition no_client_run (entry : cache_entry) : list event :=
  St title app_title :: written (cached_elements entry).

(** A member that is absent or is not a JSON string. *)
Definition not_a_string (member : option json) : Prop :=
  forall s, member <> Some (JStr s).

(** A decoded reply that breaks the schema: it is not an object; or its
    [score] is absent or is refused as an integer; or its [summary] is
    absent or not a string; or its [feedback] is absent, is not an
    object, or has one of its three members absent or not a string. *)
Definition violates_schema `{Pydantic} (j : json) : Prop :=
  match j with
  | JObject ms =>
      match get_member (lit "score") ms with
      | Some sj => validate_int sj = None
      | None => True
      end
      \/ not_a_string (get_member (lit "summary") ms)
      \/ match get_member (lit "feedback") ms with
         | Some (JObject fms) =>
             not_a_string (get_member (lit "keywordMatch") fms)
             \/ not_a_string (get_member (lit "contentImpact") fms)
             \/ not_a_string (get_member (lit "formattingAndStructure") fms)
         | _ => True
         end
  | _ => True
  end.

(** A reply that does not decode, or decodes to a value that breaks the
    schema. *)
Definition rejected_text `{Pydantic} (json_data : str) : Prop :=
  match json_loads json_data with
  | Some j => violates_schema j
  | None => True
  end.

(** The sample reply with its score written as a string. *)
Definition string_score_reply : str :=
  Reference.text
    "{'score':'87','summary':'S','feedback':{'keywordMatch':'a','contentImpact':'b','formattingAndStructure':'c'}}".

(** The sample reply with a number where the summary should be. *)
Definition number_summary_reply : str :=
  Reference.text
    "{'score':87,'summary':5,'feedback':{'keywordMatch':'a','contentImpact':'b','formattingAndStructure':'c'}}".

(** * Properties *)

Unset Implicit Arguments.

(** ** The prompt *)

(** C6: the user message sent to the model holds the resume verbatim
    right under the label [RESUME TEXT:] and the job description verbatim
    right under the label [JOB DESCRIPTION:], the resume part first; the
    text around them does not depend on the two inputs. *)
Theorem user_message_embeds_inputs `{Pydantic} :
  exists pre mid post : str,
    forall resume_text jd_text : str,
      contents (analysis_request resume_text jd_text)
      = [ {| role := lit "user";
             parts := [ pre ++ lit "RESUME TEXT:" ++ nl ++ lit "    "
                        ++ resume_text ++ mid
                        ++ lit "JOB DESCRIPTION:" ++ nl ++ lit "    "
                        ++ jd_text ++ post ] |} ].
Proof.
  exists (nl ++ lit "    Analyze the following RESUME against the JOB DESCRIPTION."
          ++ nl ++ nl ++ lit "    ---" ++ nl ++ lit "    ").
  exists (nl ++ lit "    ---" ++ nl ++ lit "    ").
  exists (nl ++ lit "    ").
  intros resume_text jd_text.
  unfold analysis_request, user_query; cbn [contents].
  repeat rewrite <- app_assoc.
  reflexivity.
Qed.

(** ** One attempt *)

Section Attempt.
Context {P : Pydantic}.
Variables (client : Client) (req : request) (attempt : Z) (w : world).

Lemma attempt_valid (json_data : str) (r : ATSResult) :
  respond client (requests w) req = Response json_data ->
  validate_json json_data = Some r ->
  attempt_body client req attempt w = (Return (Returns (Some r)), send req w).
Proof.
  intros Hresp Hval.
  unfold attempt_body, try_except, bind, generate_content, model_validate_json.
  rewrite Hresp, Hval. reflexivity.
Qed.

Lemma attempt_invalid (json_data : str) :
  respond client (requests w) req = Response json_data ->
  validate_json json_data = None ->
  attempt_body client req attempt w
  = (Return (Returns None),
     emit (St error (parse_error (rejected json_data))) (send req w)).
Proof.
  intros Hresp Hval.
  unfold attempt_body, try_except, bind, generate_content, model_validate_json.
  rewrite Hresp, Hval. reflexivity.
Qed.

Lemma attempt_transient (e : exn) :
  respond client (requests w) req = Failure e ->
  isinstance e APIError = true ->
  (attempt < 2)%Z ->
  attempt_body client req attempt w
  = (Return Next, emit (Sleep (2 ^ attempt)) (send req w)).
Proof.
  intros Hresp Hapi Hlt.
  unfold attempt_body, try_except, bind, generate_content.
  rewrite Hresp, Hapi.
  replace (attempt <? max_retries - 1)%Z with true
    by (symmetry; apply Z.ltb_lt; unfold max_retries; lia).
  reflexivity.
Qed.

Lemma attempt_exhausted (e : exn) :
  respond client (requests w) req = Failure e ->
  isinstance e APIError = true ->
  (2 <= attempt)%Z ->
  attempt_body client req attempt w
  = (Return (Returns None), emit (St error (exhausted_error e)) (send req w)).
Proof.
  intros Hresp Hapi Hge.
  unfold attempt_body, try_except, bind, generate_content.
  rewrite Hresp, Hapi.
  replace (attempt <? max_retries - 1)%Z with false
    by (symmetry; apply Z.ltb_ge; unfold max_retries; lia).
  reflexivity.
Qed.

Lemma attempt_other (e : exn) :
  respond client (requests w) req = Failure e ->
  isinstance e APIError = false ->
  exists msg,
    attempt_body client req attempt w
    = (Return (Returns None), emit (St error msg) (send req w)).
Proof.
  intros Hresp Hapi.
  unfold attempt_body, try_except, bind, generate_content.
  rewrite Hresp, Hapi.
  destruct (isinstance e JSONDecodeError || isinstance e ValueError);
    eexists; reflexivity.
Qed.

End Attempt.

(** ** The retry loop *)

Section Retry.
Context {P : Pydantic}.
Variables (client : Client) (resume_text jd_text : str).

Lemma analyze_unfold (w : world) :
  analyze_resume_ats client resume_text jd_text w
  = for_in [0; 1; 2]%Z
      (attempt_body client (analysis_request resume_text jd_text))
      (ret None) w.
Proof. reflexivity. Qed.

Lemma retried_0 (req : request) (w : world) : retried req 0 w = w.
Proof.
  destruct w as [t n c]; unfold retried; cbn.
  now rewrite app_nil_r, Nat.add_0_r.
Qed.

Lemma retried_S (req : request) (k : nat) (w : world) :
  retried req (S k) w
  = emit (Sleep (2 ^ Z.of_nat k)) (send req (retried req k w)).
Proof.
  unfold retried, emit, send, backoff; cbn [trace requests resource_cache].
  rewrite seq_S, map_app, flat_map_app; cbn [List.map flat_map Nat.add].
  rewrite app_nil_r, <- !app_assoc, Nat.add_succ_r.
  reflexivity.
Qed.

(** After [k <= 2] transient failures the loop stands at attempt [k], the
    failed requests and their sleeps behind it. *)
Lemma after_failures (w : world) (k : nat) :
  (k <= 2)%nat ->
  transient_failures client (analysis_request resume_text jd_text) w k ->
  analyze_resume_ats client resume_text jd_text w
  = for_in (List.map Z.of_nat (seq k (3 - k)))
      (attempt_body client (analysis_request resume_text jd_text))
      (ret None)
      (retried (analysis_request resume_text jd_text) k w).
Proof.
  intros Hk Hfail. rewrite analyze_unfold.
  set (req := analysis_request resume_text jd_text) in *.
  assert (step : forall i, (i < k)%nat ->
            attempt_body client req (Z.of_nat i) (retried req i w)
            = (Return Next, retried req (S i) w)).
  { intros i Hi. destruct (Hfail i Hi) as (e & He & Hapi).
    rewrite retried_S.
    apply (attempt_transient client _ _ _ e); [exact He | exact Hapi | lia]. }
  destruct k as [|[|[|k]]]; try lia.
  - rewrite retried_0. reflexivity.
  - pose proof (step 0%nat ltac:(lia)) as S0.
    rewrite retried_0 in S0. change (Z.of_nat 0) with 0%Z in S0.
    cbn [seq List.map Nat.sub for_in]. unfold bind at 1.
    rewrite S0. reflexivity.
  - pose proof (step 0%nat ltac:(lia)) as S0.
    pose proof (step 1%nat ltac:(lia)) as S1.
    rewrite retried_0 in S0. change (Z.of_nat 0) with 0%Z in S0.
    change (Z.of_nat 1) with 1%Z in S1.
    cbn [seq List.map Nat.sub for_in]. unfold bind at 1.
    rewrite S0. cbn [for_in]. unfold bind at 1.
    rewrite S1. reflexivity.
Qed.

End Retry.

(** ** Worlds and traces *)

Lemma sent_app (t u : list event) : sent (t ++ u) = (sent t + sent u)%nat.
Proof. unfold sent. now rewrite filter_app, length_app. Qed.

Lemma errors_app (t u : list event) : errors (t ++ u) = errors t ++ errors u.
Proof.
  induction t as [|e t IH]; [reflexivity|].
  destruct e as [[] m| | |]; cbn; now rewrite ?IH.
Qed.

Lemma extend_nil (w : world) : extend [] w = w.
Proof.
  destruct w; unfold extend; cbn. now rewrite app_nil_r, Nat.add_0_r.
Qed.

Lemma extend_extend (t u : list event) (w : world) :
  extend u (extend t w) = extend (t ++ u) w.
Proof.
  unfold extend; cbn. now rewrite sent_app, app_assoc, Nat.add_assoc.
Qed.

Lemma send_extend (req : request) (w : world) :
  send req w = extend [GenerateContent req] w.
Proof. unfold send, extend; cbn. now rewrite Nat.add_1_r. Qed.

Lemma emit_extend (e : event) (w : world) :
  is_request e = false -> emit e w = extend [e] w.
Proof.
  intros He. unfold emit, extend, sent; cbn. rewrite He; cbn.
  now rewrite Nat.add_0_r.
Qed.

Lemma sent_backoff (req : request) (k : nat) : sent (backoff req k) = k.
Proof.
  unfold backoff. generalize 0%nat.
  induction k as [|k IH]; intros n; [reflexivity|].
  cbn [seq List.map flat_map app].
  change (sent (GenerateContent req :: Sleep (2 ^ Z.of_nat n) :: ?t))
    with (S (sent t)).
  now rewrite IH.
Qed.

(** ** Validation *)

Lemma str_eqb_eq (a b : str) : str_eqb a b = true <-> a = b.
Proof.
  revert b. induction a as [|x a IH]; intros [|y b]; cbn; try easy.
  rewrite andb_true_iff, N.eqb_eq, IH. split.
  - now intros [-> ->].
  - intros H; injection H; auto.
Qed.

(** Member access does not depend on the order of the members, as long
    as no name occurs twice. *)
Lemma get_member_perm (name : str) (ms ms' : list (str * json)) :
  Permutation ms ms' ->
  NoDup (List.map fst ms) ->
  get_member name ms = get_member name ms'.
Proof.
  induction 1 as [|[k v] l l' Hp IH|[k1 v1] [k2 v2] l|l1 l2 l3 H1 IH1 H2 IH2];
    intros Hnd.
  - reflexivity.
  - cbn in *. inversion Hnd; subst. now rewrite IH.
  - cbn in *. inversion Hnd as [|? ? Hnotin Hnd']; subst.
    destruct (str_eqb k1 name) eqn:E1, (str_eqb k2 name) eqn:E2; try reflexivity.
    apply str_eqb_eq in E1, E2. subst. elim Hnotin. now left.
  - rewrite IH1 by assumption. apply IH2.
    eapply Permutation_NoDup; [|exact Hnd]. now apply Permutation_map.
Qed.

Lemma validate_Feedback_members {P : Pydantic} (f : Feedback)
    (ms : list (str * json)) :
  Permutation ms (Feedback_members f) ->
  validate_Feedback (JObject ms) = Some f.
Proof.
  intros Hp. apply Permutation_sym in Hp.
  assert (Hnd : NoDup (List.map fst (Feedback_members f))).
  { cbn. repeat constructor; cbn; intuition discriminate. }
  unfold validate_Feedback, required.
  rewrite <- !(get_member_perm _ _ _ Hp Hnd).
  destruct f. reflexivity.
Qed.

(** Validation gives back the report a conforming object carries. *)
Lemma validate_conforming {P : Pydantic} (j : json) (r : ATSResult) :
  conforming j r -> validate_ATSResult j = Some r.
Proof.
  intros (ms & fms & -> & Hp & Hf). apply Permutation_sym in Hp.
  assert (Hnd : NoDup (List.map fst (ATSResult_members r (JObject fms)))).
  { cbn. repeat constructor; cbn; intuition discriminate. }
  unfold validate_ATSResult, required.
  rewrite <- !(get_member_perm _ _ _ Hp Hnd).
  cbn -[validate_Feedback].
  rewrite (validate_Feedback_members _ _ Hf).
  destruct r. reflexivity.
Qed.

Lemma conforming_to_json (r : ATSResult) : conforming (to_json r) r.
Proof. do 2 eexists. split; [reflexivity|]. split; apply Permutation_refl. Qed.

Lemma validate_to_json {P : Pydantic} (r : ATSResult) :
  validate_ATSResult (to_json r) = Some r.
Proof. apply validate_conforming, conforming_to_json. Qed.

Lemma sample_reply_decodes :
  json_loads (Pydantic := Reference.library) sample_reply
  = Some (to_json sample_report).
Proof. vm_compute. reflexivity. Qed.

(** ** Round trip *)

(** C1: when the service, after [k < 3] transient failures, answers with
    text that decodes to a JSON object conforming exactly to the schema,
    the analysis returns the report whose score, summary and three
    feedback fields are the values of that object, and that request is
    the last thing that happens: no sleep and no further request follow
    it. *)
Theorem conforming_reply_is_returned {P : Pydantic}
    (client : Client) (resume_text jd_text : str) (w : world)
    (k : nat) (json_data : str) (j : json) (r : ATSResult) :
  (k < 3)%nat ->
  transient_failures client (analysis_request resume_text jd_text) w k ->
  respond client (requests w + k) (analysis_request resume_text jd_text)
  = Response json_data ->
  json_loads json_data = Some j ->
  conforming j r ->
  exists w',
    analyze_resume_ats client resume_text jd_text w = (Return (Some r), w')
    /\ trace w'
       = trace w ++ backoff (analysis_request resume_text jd_text) k
         ++ [GenerateContent (analysis_request resume_text jd_text)]
    /\ requests w' = (requests w + k + 1)%nat.
Proof.
  intros Hk Hfail Hresp Hjson Hconf.
  assert (Hval : validate_json json_data = Some r).
  { unfold validate_json. rewrite Hjson. now apply validate_conforming. }
  exists (send (analysis_request resume_text jd_text)
               (retried (analysis_request resume_text jd_text) k w)).
  split; [|split].
  - rewrite (after_failures client resume_text jd_text w k) by (lia || assumption).
    assert (Hseq : exists rest, List.map Z.of_nat (seq k (3 - k)) = Z.of_nat k :: rest).
    { destruct (3 - k)%nat as [|m] eqn:E; [lia|]. cbn. eauto. }
    destruct Hseq as (rest & ->). cbn [for_in]. unfold bind at 1.
    rewrite (attempt_valid client _ (Z.of_nat k) _ json_data r); auto.
  - cbn. now rewrite app_assoc.
  - cbn. lia.
Qed.

(** The reply of the specification's example (score 87, summary [S],
    feedback [a], [b], [c]), answered at once. *)
Lemma conforming_reply_witness :
  exists w',
    analyze_resume_ats (P := Reference.library)
      (scripted [Response sample_reply]) (lit "resume") (lit "job") fresh
    = (Return (Some sample_report), w')
    /\ trace w'
       = trace fresh ++ backoff sample_request 0
         ++ [GenerateContent sample_request]
    /\ requests w' = (requests fresh + 0 + 1)%nat.
Proof.
  apply (@conforming_reply_is_returned Reference.library
           (scripted [Response sample_reply]) (lit "resume") (lit "job")
           fresh 0%nat sample_reply (to_json sample_report) sample_report).
  - lia.
  - intros i Hi. lia.
  - reflexivity.
  - vm_compute. reflexivity.
  - do 2 eexists. split; [reflexivity|]. split; apply Permutation_refl.
Defined.

(** ** Every attempt, every loop *)

Section Outcome.
Context {P : Pydantic}.
Variables (client : Client) (req : request).

(** The three ways an attempt can end.  In each the request has gone out;
    nothing is raised. *)
Lemma attempt_cases (attempt : Z) (w : world) :
  (exists json_data r,
      validate_json json_data = Some r
      /\ attempt_body client req attempt w
         = (Return (Returns (Some r)), extend [GenerateContent req] w))
  \/ (exists msg,
      attempt_body client req attempt w
      = (Return (Returns None),
         extend [GenerateContent req; St error msg] w))
  \/ ((attempt < 2)%Z
      /\ attempt_body client req attempt w
         = (Return Next,
            extend [GenerateContent req; Sleep (2 ^ attempt)] w)).
Proof.
  destruct (respond client (requests w) req) as [json_data|e] eqn:Hresp.
  - destruct (validate_json json_data) as [r|] eqn:Hval.
    + left. exists json_data, r. split; [exact Hval|].
      rewrite (attempt_valid client req attempt w json_data r Hresp Hval).
      now rewrite send_extend.
    + right; left. eexists.
      rewrite (attempt_invalid client req attempt w json_data Hresp Hval).
      rewrite send_extend, emit_extend, extend_extend by reflexivity.
      reflexivity.
  - destruct (isinstance e APIError) eqn:Hapi.
    + destruct (Z.lt_ge_cases attempt 2) as [Hlt|Hge].
      * right; right. split; [exact Hlt|].
        rewrite (attempt_transient client req attempt w e Hresp Hapi Hlt).
        rewrite send_extend, emit_extend, extend_extend by reflexivity.
        reflexivity.
      * right; left. eexists.
        rewrite (attempt_exhausted client req attempt w e Hresp Hapi Hge).
        rewrite send_extend, emit_extend, extend_extend by reflexivity.
        reflexivity.
    + right; left.
      destruct (attempt_other client req attempt w e Hresp Hapi) as (msg & ->).
      exists msg.
      rewrite send_extend, emit_extend, extend_extend by reflexivity.
      reflexivity.
Qed.

(** How a run of the loop over any list of attempts ends: with a
    validated report and no error message; with [None] and one error
    message, written last; or, when every attempt asked for a retry, with
    [None] and no message at all. *)
Lemma loop_outcome (attempts : list Z) (w : world) :
  exists (v : option ATSResult) (t : list event),
    for_in attempts (attempt_body client req) (ret None) w
    = (Return v, extend t w)
    /\ (sent t <= List.length attempts)%nat
    /\ (attempts <> [] -> exists post, t = GenerateContent req :: post)
    /\ ((exists r json_data,
            v = Some r /\ errors t = []
            /\ validate_json json_data = Some r)
        \/ (exists msg,
            v = None /\ errors t = [msg] /\ last t (Sleep 0) = St error msg)
        \/ (v = None /\ errors t = [] /\ Forall (fun a => (a < 2)%Z) attempts)).
Proof.
  revert w. induction attempts as [|a rest IH]; intros w.
  - exists None, []. rewrite extend_nil. cbn.
    repeat split; auto. intros H; now elim H.
  - cbn [for_in]. unfold bind at 1.
    destruct (attempt_cases a w)
      as [(json_data & r & Hval & ->)|[(msg & ->)|(Hlt & ->)]].
    + exists (Some r), [GenerateContent req]. cbn.
      repeat split; [lia|eauto|]. left. exists r, json_data. auto.
    + exists None, [GenerateContent req; St error msg]. cbn.
      repeat split; [lia|eauto|]. right; left. exists msg. auto.
    + destruct (IH (extend [GenerateContent req; Sleep (2 ^ a)] w))
        as (v & t & Hrun & Hsent & _ & Hout).
      exists v, ([GenerateContent req; Sleep (2 ^ a)] ++ t).
      rewrite Hrun, extend_extend.
      repeat split.
      * rewrite sent_app. cbn in *. lia.
      * intros _. cbn. eauto.
      * rewrite errors_app. cbn [errors app].
        destruct Hout as [(r & jd & -> & He & Hv)|[(msg & -> & He & Hl)|(-> & He & Hall)]].
        -- left. exists r, jd. auto.
        -- right; left. exists msg. repeat split; auto.
           destruct t as [|e t']; [discriminate He|].
           cbn [app]. cbn [last]. exact Hl.
        -- right; right. auto.
Qed.

End Outcome.

(** ** Totality and the single outcome *)

(** C5: every call of the analysis returns, whatever the service does: no
    exception leaves it.  It returns either a report that came whole out
    of validation, and then no error was written, or [None], and then
    exactly one error message was written, as the last thing the call
    did.  Between one and three requests were sent. *)
Theorem analyze_one_outcome {P : Pydantic}
    (client : Client) (resume_text jd_text : str) (w : world) :
  exists (v : option ATSResult) (t : list event),
    analyze_resume_ats client resume_text jd_text w = (Return v, extend t w)
    /\ (1 <= sent t <= 3)%nat
    /\ match v with
       | Some r =>
           errors t = []
           /\ exists json_data, validate_json json_data = Some r
       | None =>
           exists msg, errors t = [msg] /\ last t (Sleep 0) = St error msg
       end.
Proof.
  rewrite analyze_unfold.
  destruct (loop_outcome client (analysis_request resume_text jd_text)
              [0; 1; 2]%Z w)
    as (v & t & Hrun & Hsent & Hfirst & Hout).
  exists v, t. split; [exact Hrun|]. split.
  - destruct Hfirst as (post & ->); [discriminate|].
    cbn in Hsent |- *. lia.
  - destruct Hout as [(r & jd & -> & He & Hv)|[(msg & -> & He & Hl)|(_ & _ & Hall)]].
    + split; [exact He|]. now exists jd.
    + now exists msg.
    + exfalso.
      apply Forall_inv_tail, Forall_inv_tail, Forall_inv in Hall. lia.
Qed.

(** ** Back-off *)

(** C2, amended: when attempts [1..k] end in an [APIError] and attempts
    remain ([k < 3]), what happens between request [k] and request [k+1]
    is one sleep of [2^(k-1)] seconds.  In particular, after two such
    failures a third answer that validates is returned, and the trace is
    request, sleep 1, request, sleep 2, request. *)
Theorem backoff_between_attempts {P : Pydantic}
    (client : Client) (resume_text jd_text : str) (w : world) (k : nat) :
  (1 <= k < 3)%nat ->
  transient_failures client (analysis_request resume_text jd_text) w k ->
  exists (v : option ATSResult) (w' : world) (pre post : list event),
    analyze_resume_ats client resume_text jd_text w = (Return v, w')
    /\ trace w'
       = trace w ++ pre
         ++ [ GenerateContent (analysis_request resume_text jd_text);
              Sleep (2 ^ (Z.of_nat k - 1));
              GenerateContent (analysis_request resume_text jd_text) ]
         ++ post
    /\ sent pre = (k - 1)%nat
    /\ (k = 2%nat ->
        forall json_data r,
          respond client (requests w + 2)
                  (analysis_request resume_text jd_text) = Response json_data ->
          validate_json json_data = Some r ->
          v = Some r
          /\ trace w'
             = trace w
               ++ [ GenerateContent (analysis_request resume_text jd_text);
                    Sleep 1;
                    GenerateContent (analysis_request resume_text jd_text);
                    Sleep 2;
                    GenerateContent (analysis_request resume_text jd_text) ]).
Proof.
  intros Hk Hfail.
  pose proof (after_failures client resume_text jd_text w k ltac:(lia) Hfail)
    as Hrun.
  destruct (loop_outcome client (analysis_request resume_text jd_text)
              (List.map Z.of_nat (seq k (3 - k)))
              (retried (analysis_request resume_text jd_text) k w))
    as (v & t & Hloop & _ & Hfirst & _).
  destruct Hfirst as (post & ->).
  { destruct (3 - k)%nat eqn:E; [lia|discriminate]. }
  exists v, (extend (GenerateContent (analysis_request resume_text jd_text) :: post)
                    (retried (analysis_request resume_text jd_text) k w)).
  exists (backoff (analysis_request resume_text jd_text) (k - 1)), post.
  split; [now rewrite Hrun|]. split; [|split].
  - cbn [extend retried trace].
    destruct k as [|[|[|k]]]; try lia; cbn; now rewrite <- ?app_assoc.
  - apply sent_backoff.
  - intros -> json_data r Hresp Hval.
    cbn [seq List.map Nat.sub for_in] in Hloop.
    unfold bind at 1 in Hloop.
    rewrite (attempt_valid client _ _ _ json_data r) in Hloop; auto.
    pose proof (f_equal fst Hloop) as Hv.
    pose proof (f_equal (fun p => trace (snd p)) Hloop) as Ht.
    cbn [fst snd trace send extend retried] in Hv, Ht.
    injection Hv as <-.
    apply app_inv_head in Ht. injection Ht as <-.
    split; [reflexivity|].
    cbn. now rewrite <- ?app_assoc.
Qed.

(** Two rate-limit answers, then the sample reply: the report comes back
    after sleeps of 1 and 2 seconds. *)
Lemma backoff_between_attempts_witness :
  exists (w' : world) (pre post : list event),
    analyze_resume_ats (P := Reference.library)
      (scripted [Failure rate_limited; Failure rate_limited;
                 Response sample_reply])
      (lit "resume") (lit "job") fresh = (Return (Some sample_report), w')
    /\ trace w'
       = trace fresh ++ pre
         ++ [GenerateContent sample_request; Sleep (2 ^ (Z.of_nat 2 - 1));
             GenerateContent sample_request]
         ++ post
    /\ sent pre = (2 - 1)%nat
    /\ trace w'
       = trace fresh
         ++ [GenerateContent sample_request; Sleep 1;
             GenerateContent sample_request; Sleep 2;
             GenerateContent sample_request].
Proof.
  destruct (@backoff_between_attempts Reference.library
              (scripted [Failure rate_limited; Failure rate_limited;
                         Response sample_reply])
              (lit "resume") (lit "job") fresh 2%nat)
    as (v & w' & pre & post & Hrun & Htrace & Hpre & Hthird).
  - lia.
  - intros i Hi. exists rate_limited.
    destruct i as [|[|i]]; [split; reflexivity | split; reflexivity | lia].
  - destruct (Hthird eq_refl sample_reply sample_report) as [Hv Hall].
    + reflexivity.
    + vm_compute. reflexivity.
    + exists w', pre, post. rewrite <- Hv. auto.
Defined.

(** ** Exhaustion *)

(** C3, amended: when all three attempts end in an [APIError], the analysis
    returns [None] and reports that no response came after 3 attempts,
    with the detail of the last error.  Three requests were sent, not a
    fourth, with sleeps of 1 and 2 seconds between them and none after
    the last. *)
Theorem exhaustion_after_three_attempts {P : Pydantic}
    (client : Client) (resume_text jd_text : str) (w : world) (e : exn) :
  transient_failures client (analysis_request resume_text jd_text) w 2 ->
  respond client (requests w + 2) (analysis_request resume_text jd_text)
  = Failure e ->
  isinstance e APIError = true ->
  exists w',
    analyze_resume_ats client resume_text jd_text w = (Return None, w')
    /\ trace w'
       = trace w
         ++ [ GenerateContent (analysis_request resume_text jd_text);
              Sleep 1;
              GenerateContent (analysis_request resume_text jd_text);
              Sleep 2;
              GenerateContent (analysis_request resume_text jd_text);
              St error (lit "Failed to get a response after 3 attempts. API Error: "
                        ++ exn_str e) ]
    /\ requests w' = (requests w + 3)%nat.
Proof.
  intros Hfail Hresp Hapi.
  rewrite (after_failures client resume_text jd_text w 2) by (lia || assumption).
  cbn [seq List.map Nat.sub for_in]. unfold bind at 1.
  rewrite (attempt_exhausted client _ _ _ e) by (cbn; auto; lia).
  eexists. split; [reflexivity|]. split.
  - cbn. now rewrite <- ?app_assoc.
  - cbn. lia.
Qed.

(** Three rate-limit answers in a row. *)
Lemma exhaustion_witness :
  exists w',
    analyze_resume_ats (P := Reference.library)
      (scripted [Failure rate_limited; Failure rate_limited;
                 Failure rate_limited])
      (lit "resume") (lit "job") fresh = (Return None, w')
    /\ trace w'
       = trace fresh
         ++ [ GenerateContent sample_request; Sleep 1;
              GenerateContent sample_request; Sleep 2;
              GenerateContent sample_request;
              St error (lit "Failed to get a response after 3 attempts. API Error: "
                        ++ exn_str rate_limited) ]
    /\ requests w' = (requests fresh + 3)%nat.
Proof.
  apply (@exhaustion_after_three_attempts Reference.library
           (scripted [Failure rate_limited; Failure rate_limited;
                      Failure rate_limited])
           (lit "resume") (lit "job") fresh rate_limited).
  - intros i Hi. exists rate_limited.
    destruct i as [|[|i]]; [split; reflexivity | split; reflexivity | lia].
  - reflexivity.
  - reflexivity.
Defined.

(** ** Schema violation *)

(** When the service, after [k < 3] [APIError]s, answers with text that
    validation refuses, the analysis returns [None] at once and reports
    a parse failure: that report directly follows the request, with no
    sleep and no further request, whatever the number of attempts
    left. *)
Theorem schema_violation_not_retried {P : Pydantic}
    (client : Client) (resume_text jd_text : str) (w : world)
    (k : nat) (json_data : str) :
  (k < 3)%nat ->
  transient_failures client (analysis_request resume_text jd_text) w k ->
  respond client (requests w + k) (analysis_request resume_text jd_text)
  = Response json_data ->
  validate_json json_data = None ->
  exists w',
    analyze_resume_ats client resume_text jd_text w = (Return None, w')
    /\ trace w'
       = trace w ++ backoff (analysis_request resume_text jd_text) k
         ++ [ GenerateContent (analysis_request resume_text jd_text);
              St error (lit "Failed to parse AI response (Invalid JSON structure). Error: "
                        ++ validation_error_str json_data) ]
    /\ requests w' = (requests w + k + 1)%nat.
Proof.
  intros Hk Hfail Hresp Hval.
  rewrite (after_failures client resume_text jd_text w k) by (lia || assumption).
  assert (Hseq : exists rest,
             List.map Z.of_nat (seq k (3 - k)) = Z.of_nat k :: rest).
  { destruct (3 - k)%nat as [|m] eqn:E; [lia|]. cbn. eauto. }
  destruct Hseq as (rest & ->). cbn [for_in]. unfold bind at 1.
  rewrite (attempt_invalid client _ (Z.of_nat k) _ json_data); auto.
  eexists. split; [reflexivity|]. split.
  - cbn. now rewrite <- ?app_assoc.
  - cbn. lia.
Qed.

(** A reply cut short on the first attempt. *)
Lemma schema_violation_witness :
  exists w',
    analyze_resume_ats (P := Reference.library)
      (scripted [Response (Reference.text "{'score': 87, 'summary'")])
      (lit "resume") (lit "job") fresh = (Return None, w')
    /\ trace w'
       = trace fresh ++ backoff sample_request 0
         ++ [ GenerateContent sample_request;
              St error (lit "Failed to parse AI response (Invalid JSON structure). Error: "
                        ++ validation_error_str (Pydantic := Reference.library)
                             (Reference.text "{'score': 87, 'summary'")) ]
    /\ requests w' = (requests fresh + 0 + 1)%nat.
Proof.
  apply (@schema_violation_not_retried Reference.library
           (scripted [Response (Reference.text "{'score': 87, 'summary'")])
           (lit "resume") (lit "job") fresh 0%nat
           (Reference.text "{'score': 87, 'summary'")).
  - lia.
  - intros i Hi. lia.
  - reflexivity.
  - vm_compute. reflexivity.
Defined.

(** ** White space *)

Lemma blank_app (a b : str) : blank (a ++ b) = blank a && blank b.
Proof. apply forallb_app. Qed.

Lemma blank_rev (s : str) : blank (rev s) = blank s.
Proof.
  induction s as [|c s IH]; [reflexivity|].
  cbn [rev]. rewrite blank_app, IH. cbn. now rewrite andb_true_r, andb_comm.
Qed.

Lemma lstrip_blank (s : str) : blank s = true -> lstrip s = [].
Proof.
  induction s as [|c s IH]; [reflexivity|].
  cbn. intros H. apply andb_prop in H as [Hc Hs]. now rewrite Hc, IH.
Qed.

Lemma blank_lstrip (s : str) : blank (lstrip s) = blank s.
Proof.
  induction s as [|c s IH]; [reflexivity|].
  cbn [lstrip]. destruct (isspace c) eqn:Hc.
  - rewrite IH. cbn. now rewrite Hc.
  - reflexivity.
Qed.

Lemma blank_strip (s : str) : blank (strip s) = blank s.
Proof.
  unfold strip, rstrip.
  now rewrite blank_rev, blank_lstrip, blank_rev, blank_lstrip.
Qed.

(** [s.strip()] is empty exactly when [s] is white space only. *)
Lemma truthy_strip (s : str) : truthy (strip s) = negb (blank s).
Proof.
  destruct (blank s) eqn:Hb.
  - unfold strip, rstrip. rewrite (lstrip_blank s Hb). reflexivity.
  - rewrite <- blank_strip in Hb.
    destruct (strip s); [discriminate Hb|reflexivity].
Qed.

Lemma blank_gathered (texts : list str) :
  blank (gathered texts) = forallb blank texts.
Proof.
  unfold gathered.
  induction texts as [|s texts IH]; [reflexivity|].
  cbn [filter forallb]. destruct s as [|c s].
  - cbn [truthy]. exact IH.
  - cbn [truthy List.map List.concat].
    rewrite !blank_app, IH. cbn [blank forallb nl].
    change (isspace 10) with true. now rewrite !andb_true_r.
Qed.

(** ** PDF extraction *)

Lemma sent_warnings (texts : list str) : sent (warnings texts) = 0%nat.
Proof.
  unfold warnings, sent.
  induction (filter (fun s => negb (truthy s)) texts); [reflexivity|assumption].
Qed.

(** The loop over pages that all give text: what it gathers and writes. *)
Lemma for_page_texts (texts : list str) (acc : str) (w : world) :
  for_page (List.map text_page texts) acc w
  = (Return (acc ++ gathered texts), extend (warnings texts) w).
Proof.
  revert acc w. induction texts as [|s texts IH]; intros acc w.
  - cbn. unfold gathered, warnings. cbn.
    now rewrite app_nil_r, extend_nil.
  - cbn [List.map for_page]. unfold bind at 1. cbn [call text_page extract_text].
    destruct s as [|c s]; cbn [truthy].
    + unfold bind at 1, st, perform.
      rewrite IH, emit_extend, extend_extend by reflexivity.
      reflexivity.
    + rewrite IH. unfold gathered. cbn [filter truthy List.map List.concat].
      now rewrite <- !app_assoc.
Qed.

(** C10, amended: when the reader and every page return (each page its
    text, possibly none) and at least one page gives text that is not
    white space only, the extraction returns the non-empty page texts in
    page order, each followed by a line feed; a page without text is left
    out and costs a warning, not the extraction. *)
Theorem partial_extraction_succeeds
    (uploaded_file : UploadedFile) (texts : list str) (w : world) :
  PdfReader uploaded_file = Return (List.map text_page texts) ->
  existsb (fun s => negb (blank s)) texts = true ->
  extract_text_from_pdf uploaded_file w
  = (Return (Some (List.concat (List.map (fun s => s ++ nl)
                                         (filter truthy texts)))),
     extend (List.map (fun _ => St warning page_warning)
                      (filter (fun s => negb (truthy s)) texts)) w).
Proof.
  intros Hread Hsome.
  unfold extract_text_from_pdf, try_except, bind, call.
  rewrite Hread, for_page_texts. cbn [app].
  rewrite truthy_strip, blank_gathered.
  assert (Hall : forallb blank texts = false).
  { apply existsb_exists in Hsome as (s & Hin & Hs).
    destruct (forallb blank texts) eqn:E; [|reflexivity].
    rewrite forallb_forall in E. rewrite (E s Hin) in Hs. discriminate. }
  rewrite Hall. reflexivity.
Qed.

(** A scan between two pages of text. *)
Lemma partial_extraction_witness :
  extract_text_from_pdf
    {| PdfReader := Return (List.map text_page [lit "Jane Doe"; []; lit "Python"]) |}
    fresh
  = (Return (Some (List.concat (List.map (fun s => s ++ nl)
                     (filter truthy [lit "Jane Doe"; []; lit "Python"])))),
     extend (List.map (fun _ => St warning page_warning)
               (filter (fun s => negb (truthy s))
                       [lit "Jane Doe"; []; lit "Python"])) fresh).
Proof.
  apply (partial_extraction_succeeds
           {| PdfReader := Return (List.map text_page [lit "Jane Doe"; []; lit "Python"]) |}
           [lit "Jane Doe"; []; lit "Python"] fresh).
  - reflexivity.
  - reflexivity.
Defined.

(** Text on one page is not enough for the extraction to succeed: here
    the first page gives text that is not white space, yet the extraction
    returns [None], because reading the second page raised. *)
Lemma partial_extraction_counterexample :
  (exists pages s,
      PdfReader damaged_pdf = Return pages
      /\ In (text_page s) pages /\ blank s = false)
  /\ fst (extract_text_from_pdf damaged_pdf fresh) = Return None
  /\ fst (extract_text_from_pdf damaged_pdf fresh)
     <> Return (Some (lit "Jane Doe" ++ nl)).
Proof.
  split; [|split].
  - exists [ text_page (lit "Jane Doe");
             {| extract_text :=
                  Raise {| exn_class := OtherException;
                           exn_str := lit "Unexpected end of stream" |} |} ],
           (lit "Jane Doe").
    split; [reflexivity|]. split; [now left|reflexivity].
  - reflexivity.
  - discriminate.
Qed.

(** ** Empty extraction *)

Lemma sent_written (els : list (element * str)) : sent (written els) = 0%nat.
Proof. unfold sent, written. induction els; [reflexivity|assumption]. Qed.

Lemma skipn_appended {A : Type} (l t : list A) :
  skipn (List.length l) (l ++ t) = t.
Proof. induction l; [reflexivity|assumption]. Qed.

(** The factory with a cold cache and no key: it returns [None], writes
    the two messages and keeps both. *)
Lemma get_client_missing_key (s : session) (w : world) :
  resource_cache w = None ->
  key_missing (GEMINI_API_KEY s) = true ->
  get_gemini_client s w
  = (Return None,
     store missing_key_entry
           (extend [St error key_not_found_error; St info key_not_found_info] w)).
Proof.
  intros Hc Hk.
  unfold get_gemini_client, cache_resource, get_gemini_client_body.
  rewrite Hc, Hk. cbn.
  rewrite <- app_assoc, skipn_appended. cbn.
  unfold store, extend, missing_key_entry. cbn.
  now rewrite <- app_assoc, Nat.add_0_r.
Qed.

(** The factory with a warm cache. *)
Lemma get_client_cached (s : session) (w : world) (entry : cache_entry) :
  resource_cache w = Some entry ->
  get_gemini_client s w
  = (Return (cached_value entry), replay (cached_elements entry) w).
Proof.
  intros Hc. unfold get_gemini_client, cache_resource. now rewrite Hc.
Qed.

Lemma quiet_get_gemini_client (s : session) : quiet (get_gemini_client s).
Proof.
  intros w. unfold get_gemini_client, cache_resource.
  destruct (resource_cache w) as [entry|] eqn:Hc.
  - exists (cached_value entry), (replay (cached_elements entry) w),
           (written (cached_elements entry)).
    repeat split. apply sent_written.
  - unfold get_gemini_client_body.
    destruct (key_missing (GEMINI_API_KEY s)).
    + unfold bind, st, perform, ret. cbn.
      do 2 eexists.
      exists [St error key_not_found_error; St info key_not_found_info].
      split; [reflexivity|]. cbn. rewrite <- app_assoc. repeat split.
    + unfold try_except, bind, call, st, perform, ret.
      destruct (genai_Client s) as [c|e]; cbn.
      * do 2 eexists. exists [].
        split; [reflexivity|]. cbn. rewrite app_nil_r. repeat split.
      * do 2 eexists. eexists [_].
        split; [reflexivity|]. cbn. repeat split.
Qed.

(** The extraction from pages that are all white space or empty. *)
Lemma extract_blank (uploaded_file : UploadedFile) (texts : list str)
    (w : world) :
  PdfReader uploaded_file = Return (List.map text_page texts) ->
  forallb blank texts = true ->
  extract_text_from_pdf uploaded_file w
  = (Return None, extend (warnings texts ++ [St error no_text_error]) w).
Proof.
  intros Hread Hall.
  unfold extract_text_from_pdf, try_except, bind, call.
  rewrite Hread, for_page_texts. cbn [app].
  rewrite truthy_strip, blank_gathered, Hall. cbn.
  rewrite emit_extend, extend_extend by reflexivity.
  reflexivity.
Qed.

(** C8: when the pages of the uploaded document give white space or
    nothing, the extraction returns [None] and reports that no readable
    text was found; the run of the script sends no request to the model,
    whatever the other widgets hold; and once the client handle is there,
    the run consists of that extraction, the rule, and, if the button was
    pressed, the refusal to proceed. *)
Theorem blank_pdf_is_not_analysed {P : Pydantic}
    (s : session) (uploaded_file : UploadedFile) (texts : list str)
    (w : world) :
  file_uploader s = Some uploaded_file ->
  PdfReader uploaded_file = Return (List.map text_page texts) ->
  forallb blank texts = true ->
  extract_text_from_pdf uploaded_file w
  = (Return None, extend (warnings texts ++ [St error no_text_error]) w)
  /\ (exists w' t,
        main_app s w = (Return tt, w')
        /\ trace w' = trace w ++ t
        /\ sent t = 0%nat
        /\ requests w' = requests w)
  /\ (forall client w1,
        get_gemini_client s (emit (St title app_title) w)
        = (Return (Some client), w1) ->
        main_app s w
        = (Return tt,
           extend (warnings texts
                   ++ [St error no_text_error; St markdown (lit "---")]
                   ++ (if button s then [St error could_not_proceed] else []))
                  w1)).
Proof.
  intros Hfile Hread Hall.
  assert (Hrun : forall client w1,
             get_gemini_client s (emit (St title app_title) w)
             = (Return (Some client), w1) ->
             main_app s w
             = (Return tt,
                extend (warnings texts
                        ++ [St error no_text_error; St markdown (lit "---")]
                        ++ (if button s then [St error could_not_proceed] else []))
                       w1)).
  { intros client w1 Hget.
    unfold main_app. unfold bind at 1. unfold st at 1, perform at 1.
    unfold bind at 1. rewrite Hget, Hfile.
    unfold bind at 1. unfold bind at 1.
    rewrite (extract_blank uploaded_file texts w1 Hread Hall).
    unfold ret at 1. unfold bind at 1. unfold st at 1, perform at 1.
    rewrite emit_extend, extend_extend by reflexivity.
    destruct (button s).
    - unfold on_button, st, perform.
      rewrite emit_extend, extend_extend by reflexivity.
      now rewrite <- !app_assoc.
    - unfold ret. now rewrite <- !app_assoc, app_nil_r. }
  split; [exact (extract_blank uploaded_file texts w Hread Hall)|].
  split; [|exact Hrun].
  destruct (quiet_get_gemini_client s (emit (St title app_title) w))
    as (v & w1 & t1 & Hget & Ht1 & Hs1 & Hr1).
  destruct v as [client|].
  - rewrite (Hrun client w1 Hget).
    eexists. eexists (St title app_title :: t1 ++ _).
    split; [reflexivity|]. cbn [extend trace requests].
    rewrite Ht1, Hr1. cbn [emit trace requests].
    split; [now rewrite <- !app_assoc|].
    assert (Hq : sent (warnings texts
                       ++ [St error no_text_error; St markdown (lit "---")]
                       ++ (if button s then [St error could_not_proceed] else []))
                 = 0%nat).
    { rewrite sent_app, sent_warnings. now destruct (button s). }
    split.
    + change (sent (St title app_title :: t1 ++ ?x)) with (sent (t1 ++ x)).
      now rewrite sent_app, Hs1, Hq.
    + rewrite Hq. lia.
  - exists w1, (St title app_title :: t1).
    unfold main_app. unfold bind at 1. unfold st at 1, perform at 1.
    unfold bind at 1. rewrite Hget.
    split; [reflexivity|]. rewrite Ht1, Hr1. cbn [emit trace requests].
    split; [now rewrite <- app_assoc|]. split; [exact Hs1|reflexivity].
Qed.

(** A scanned resume, a job description, the button pressed: the run
    ends with the refusal to proceed and nothing is sent. *)
Lemma blank_pdf_witness :
  extract_text_from_pdf scanned_pdf fresh
  = (Return None,
     extend (warnings [[]; lit " "; []] ++ [St error no_text_error]) fresh)
  /\ exists w',
       main_app (P := Reference.library)
         (ready_session (scripted [Response sample_reply])
                        (Some scanned_pdf) (lit "job") true) fresh
       = (Return tt, w')
       /\ trace w'
          = [ St title app_title;
              St warning page_warning; St warning page_warning;
              St error no_text_error;
              St markdown (lit "---");
              St error could_not_proceed ]
       /\ requests w' = 0%nat.
Proof.
  destruct (@blank_pdf_is_not_analysed Reference.library
              (ready_session (scripted [Response sample_reply])
                             (Some scanned_pdf) (lit "job") true)
              scanned_pdf [[]; lit " "; []] fresh)
    as (Hextract & _ & Hrun).
  - reflexivity.
  - reflexivity.
  - reflexivity.
  - split; [exact Hextract|].
    eexists. split.
    + apply (Hrun (scripted [Response sample_reply])). reflexivity.
    + split; reflexivity.
Defined.

(** ** Missing credential *)

(** A run that finds no key, or finds the cache holding the outcome of
    such a run, writes the title and the two messages, sends nothing and
    leaves that outcome in the cache. *)
Lemma run_without_key {P : Pydantic} (s : session) (w : world) :
  (resource_cache w = None /\ key_missing (GEMINI_API_KEY s) = true)
  \/ resource_cache w = Some missing_key_entry ->
  exists w',
    main_app s w = (Return tt, w')
    /\ trace w' = trace w ++ key_not_found_run
    /\ requests w' = requests w
    /\ resource_cache w' = Some missing_key_entry.
Proof.
  intros Hc. unfold main_app. unfold bind at 1. unfold st at 1, perform at 1.
  unfold bind at 1.
  destruct Hc as [[Hnone Hkey]|Hsome].
  - rewrite (get_client_missing_key s (emit (St title app_title) w)) by assumption.
    eexists. split; [reflexivity|]. cbn.
    rewrite <- !app_assoc. repeat split. lia.
  - rewrite (get_client_cached s (emit (St title app_title) w) missing_key_entry)
      by assumption.
    eexists. split; [reflexivity|]. cbn.
    rewrite <- !app_assoc. repeat split. exact Hsome.
Qed.

Lemma reruns_without_key {P : Pydantic} (sessions : list session) (w : world) :
  resource_cache w = Some missing_key_entry ->
  exists w',
    reruns sessions w = (Return tt, w')
    /\ trace w'
       = trace w ++ List.concat (List.map (fun _ => key_not_found_run) sessions)
    /\ requests w' = requests w.
Proof.
  revert w. induction sessions as [|s rest IH]; intros w Hc.
  - exists w. cbn. now rewrite app_nil_r.
  - destruct (run_without_key s w (or_intror Hc)) as (w1 & Hrun & Ht & Hr & Hc1).
    destruct (IH w1 Hc1) as (w' & Hrest & Ht' & Hr').
    exists w'. cbn [reruns]. unfold bind at 1. rewrite Hrun.
    split; [exact Hrest|]. split.
    + rewrite Ht', Ht. cbn [List.map List.concat]. now rewrite <- !app_assoc.
    + now rewrite Hr', Hr.
Qed.

(** C9: in a process started without an API key, the client factory
    returns [None]; every run of the script stops after writing the title,
    the error [Gemini API Key not found!] and the hint to set
    [GEMINI_API_KEY]; and no request is ever sent to the model, whatever is
    uploaded, typed or pressed. *)
Theorem missing_key_blocks_analysis {P : Pydantic}
    (s : session) (later : list session) (w : world) :
  resource_cache w = None ->
  key_missing (GEMINI_API_KEY s) = true ->
  Forall (fun s' => key_missing (GEMINI_API_KEY s') = true) later ->
  (exists w1,
      get_gemini_client s w = (Return None, w1)
      /\ trace w1
         = trace w ++ [ St error ([10060%N] ++ lit " Gemini API Key not found!");
                        St info key_not_found_info ])
  /\ (exists w' t,
        reruns (s :: later) w = (Return tt, w')
        /\ trace w' = trace w ++ t
        /\ t = List.concat (List.map (fun _ => key_not_found_run) (s :: later))
        /\ sent t = 0%nat
        /\ requests w' = requests w).
Proof.
  intros Hc Hkey _. split.
  - rewrite (get_client_missing_key s w Hc Hkey).
    eexists. split; [reflexivity|]. reflexivity.
  - destruct (run_without_key s w (or_introl (conj Hc Hkey)))
      as (w1 & Hrun & Ht & Hr & Hc1).
    destruct (reruns_without_key later w1 Hc1) as (w' & Hrest & Ht' & Hr').
    exists w', (List.concat (List.map (fun _ => key_not_found_run) (s :: later))).
    cbn [reruns]. unfold bind at 1. rewrite Hrun.
    split; [exact Hrest|]. split; [|split; [reflexivity|split]].
    + rewrite Ht', Ht. cbn [List.map List.concat]. now rewrite <- !app_assoc.
    + clear. induction (s :: later) as [|x l IH]; [reflexivity|].
      cbn [List.map List.concat]. now rewrite sent_app, IH.
    + now rewrite Hr', Hr.
Qed.

(** Two runs without a key: nothing uploaded, then a resume, a job
    description and the button pressed. *)
Lemma missing_key_witness :
  (exists w1,
      get_gemini_client (keyless_session (scripted []) None [] false) fresh
      = (Return None, w1)
      /\ trace w1
         = trace fresh
           ++ [ St error ([10060%N] ++ lit " Gemini API Key not found!");
                St info key_not_found_info ])
  /\ (exists w' t,
        reruns (P := Reference.library)
          (keyless_session (scripted []) None [] false
           :: [keyless_session (scripted [Response sample_reply])
                 (Some {| PdfReader := Return [text_page (lit "Jane Doe")] |})
                 (lit "job") true]) fresh
        = (Return tt, w')
        /\ trace w' = trace fresh ++ t
        /\ t = List.concat
                 (List.map (fun _ => key_not_found_run)
                    (keyless_session (scripted []) None [] false
                     :: [keyless_session (scripted [Response sample_reply])
                           (Some {| PdfReader := Return [text_page (lit "Jane Doe")] |})
                           (lit "job") true]))
        /\ sent t = 0%nat
        /\ requests w' = requests fresh).
Proof.
  apply (@missing_key_blocks_analysis Reference.library
           (keyless_session (scripted []) None [] false)
           [keyless_session (scripted [Response sample_reply])
              (Some {| PdfReader := Return [text_page (lit "Jane Doe")] |})
              (lit "job") true]
           fresh).
  - reflexivity.
  - reflexivity.
  - repeat constructor.
Defined.

(** ** The score *)

(** C7 fails on the script: an [int] field takes any JSON integer, so a
    reply with the shape of the schema and a score of 150 validates, and
    the analysis returns a report whose score is 150, outside the range
    0 to 100 that the description of the field announces. *)
Theorem out_of_range_score_is_accepted :
  (forall (P : Pydantic) (z : Z), validate_int (JInt z) = Some z)
  /\ exists r w',
       analyze_resume_ats (P := Reference.library)
         (scripted [Response over_reply]) (lit "resume") (lit "job") fresh
       = (Return (Some r), w')
       /\ score r = 150%Z
       /\ ~ (0 <= score r <= 100)%Z.
Proof.
  split; [reflexivity|].
  eexists. eexists. split; [vm_compute; reflexivity|].
  split; [reflexivity|]. cbn. lia.
Qed.

(** * Further properties *)

(** ** The shape of an analysis *)

Lemma requested_app (t u : list event) :
  requested (t ++ u) = requested t ++ requested u.
Proof.
  induction t as [|e t IH]; [reflexivity|].
  destruct e; cbn; now rewrite ?IH.
Qed.

Lemma slept_app (t u : list event) : slept (t ++ u) = slept t ++ slept u.
Proof.
  induction t as [|e t IH]; [reflexivity|].
  destruct e; cbn; now rewrite ?IH.
Qed.

(** Whatever the service does, an analysis is some failed attempts with
    their sleeps (two at most), one more request, and then either nothing
    (a report is returned) or one error message ([None] is returned). *)
Lemma analyze_shape {P : Pydantic}
    (client : Client) (resume_text jd_text : str) (w : world) :
  exists (v : option ATSResult) (k : nat) (final : list event),
    (k <= 2)%nat
    /\ analyze_resume_ats client resume_text jd_text w
       = (Return v,
          extend (backoff (analysis_request resume_text jd_text) k
                  ++ GenerateContent (analysis_request resume_text jd_text)
                     :: final) w)
    /\ match v with
       | Some _ => final = []
       | None => exists msg, final = [St error msg]
       end.
Proof.
  rewrite analyze_unfold.
  set (req := analysis_request resume_text jd_text).
  cbn [for_in]. unfold bind at 1.
  destruct (attempt_cases client req 0 w)
    as [(jd0 & r0 & _ & ->)|[(m0 & ->)|(_ & ->)]].
  { exists (Some r0), 0%nat, []. repeat split; auto. }
  { exists None, 0%nat, [St error m0]. repeat split; eauto. }
  unfold bind at 1.
  destruct (attempt_cases client req 1
              (extend [GenerateContent req; Sleep (2 ^ 0)] w))
    as [(jd1 & r1 & _ & ->)|[(m1 & ->)|(_ & ->)]].
  { exists (Some r1), 1%nat, []. rewrite extend_extend.
    repeat split; auto. }
  { exists None, 1%nat, [St error m1]. rewrite extend_extend.
    repeat split; eauto. }
  unfold bind at 1.
  destruct (attempt_cases client req 2
              (extend [GenerateContent req; Sleep (2 ^ 1)]
                 (extend [GenerateContent req; Sleep (2 ^ 0)] w)))
    as [(jd2 & r2 & _ & ->)|[(m2 & ->)|(Hlt & _)]].
  { exists (Some r2), 2%nat, []. rewrite !extend_extend.
    repeat split; auto. }
  { exists None, 2%nat, [St error m2]. rewrite !extend_extend.
    repeat split; eauto. }
  lia.
Qed.

(** X1: in every analysis each request sent carries the same prompt and
    configuration, built from the two texts; the sleeps are [1], or [1]
    then [2], or none, so the call never sleeps more than 3 seconds in
    all; and the requests are one more than the sleeps. *)
Theorem retries_resend_and_wait_at_most_3 {P : Pydantic}
    (client : Client) (resume_text jd_text : str) (w : world) :
  exists (v : option ATSResult) (t : list event),
    analyze_resume_ats client resume_text jd_text w = (Return v, extend t w)
    /\ requested t
       = repeat (analysis_request resume_text jd_text) (sent t)
    /\ (slept t = [] \/ slept t = [1] \/ slept t = [1; 2])%Z
    /\ (fold_right Z.add 0 (slept t) <= 3)%Z
    /\ sent t = S (List.length (slept t)).
Proof.
  destruct (analyze_shape client resume_text jd_text w)
    as (v & k & final & Hk & Hrun & Hfinal).
  exists v. eexists. split; [exact Hrun|].
  assert (Hf : final = [] \/ exists msg, final = [St error msg]).
  { destruct v; [now left|now right]. }
  destruct k as [|[|[|k]]]; try lia;
    destruct Hf as [->|(msg & ->)]; cbn; repeat split; auto; lia.
Qed.

(** ** Failures that are not retried *)

Lemma attempt_not_api {P : Pydantic} (client : Client) (req : request)
    (attempt : Z) (w : world) (e : exn) :
  respond client (requests w) req = Failure e ->
  isinstance e APIError = false ->
  attempt_body client req attempt w
  = (Return (Returns None),
     emit (St error
             (if isinstance e JSONDecodeError || isinstance e ValueError
              then parse_error e else unexpected_error e))
          (send req w)).
Proof.
  intros Hresp Hapi.
  unfold attempt_body, try_except, bind, generate_content.
  rewrite Hresp, Hapi.
  destruct (isinstance e JSONDecodeError || isinstance e ValueError);
    reflexivity.
Qed.

(** X2: an exception of the request that is not an [APIError] ends the
    analysis at once, on whichever attempt it comes: [None] is returned
    with no sleep and no further request.  The message says the reply
    could not be parsed when the exception is a [ValueError] (although no
    reply was read), and says an unexpected error occurred otherwise. *)
Theorem other_exception_not_retried {P : Pydantic}
    (client : Client) (resume_text jd_text : str) (w : world)
    (k : nat) (e : exn) :
  (k < 3)%nat ->
  transient_failures client (analysis_request resume_text jd_text) w k ->
  respond client (requests w + k) (analysis_request resume_text jd_text)
  = Failure e ->
  isinstance e APIError = false ->
  exists w',
    analyze_resume_ats client resume_text jd_text w = (Return None, w')
    /\ trace w'
       = trace w ++ backoff (analysis_request resume_text jd_text) k
         ++ [ GenerateContent (analysis_request resume_text jd_text);
              St error
                (if isinstance e ValueError
                 then lit "Failed to parse AI response (Invalid JSON structure). Error: "
                      ++ exn_str e
                 else lit "An unexpected error occurred during analysis: "
                      ++ exn_str e) ]
    /\ requests w' = (requests w + k + 1)%nat.
Proof.
  intros Hk Hfail Hresp Hapi.
  rewrite (after_failures client resume_text jd_text w k) by (lia || assumption).
  assert (Hseq : exists rest,
             List.map Z.of_nat (seq k (3 - k)) = Z.of_nat k :: rest).
  { destruct (3 - k)%nat as [|m] eqn:E; [lia|]. cbn. eauto. }
  destruct Hseq as (rest & ->). cbn [for_in]. unfold bind at 1.
  rewrite (attempt_not_api client _ (Z.of_nat k) _ e); auto.
  eexists. split; [reflexivity|]. split.
  - cbn [trace emit send retried]. rewrite <- !app_assoc. cbn [app].
    do 3 f_equal.
    destruct e as [[] m]; reflexivity.
  - cbn. lia.
Qed.

(** A rate-limit answer, then a dropped connection. *)
Lemma other_exception_witness :
  exists w',
    analyze_resume_ats (P := Reference.library)
      (scripted [Failure rate_limited; Failure connect_error;
                 Response sample_reply])
      (lit "resume") (lit "job") fresh = (Return None, w')
    /\ trace w'
       = trace fresh ++ backoff sample_request 1
         ++ [ GenerateContent sample_request;
              St error
                (if isinstance connect_error ValueError
                 then lit "Failed to parse AI response (Invalid JSON structure). Error: "
                      ++ exn_str connect_error
                 else lit "An unexpected error occurred during analysis: "
                      ++ exn_str connect_error) ]
    /\ requests w' = (requests fresh + 1 + 1)%nat.
Proof.
  apply (@other_exception_not_retried Reference.library
           (scripted [Failure rate_limited; Failure connect_error;
                      Response sample_reply])
           (lit "resume") (lit "job") fresh 1%nat connect_error).
  - lia.
  - intros i Hi. exists rate_limited.
    destruct i as [|i]; [split; reflexivity | lia].
  - reflexivity.
  - reflexivity.
Defined.

(** ** What validation accepts *)

Lemma validate_str_inv (j : json) (s : str) :
  validate_str j = Some s <-> j = JStr s.
Proof.
  destruct j; cbn; split; intros H; try discriminate; congruence.
Qed.

Lemma required_str_inv (name : str) (ms : list (str * json)) (s : str) :
  required name validate_str ms = Some s
  <-> get_member name ms = Some (JStr s).
Proof.
  unfold required. destruct (get_member name ms) as [v|].
  - rewrite validate_str_inv. split; congruence.
  - split; discriminate.
Qed.

Lemma validate_Feedback_inv {P : Pydantic} (j : json) (f : Feedback) :
  validate_Feedback j = Some f
  <-> exists fms,
        j = JObject fms
        /\ get_member (lit "keywordMatch") fms = Some (JStr (keywordMatch f))
        /\ get_member (lit "contentImpact") fms = Some (JStr (contentImpact f))
        /\ get_member (lit "formattingAndStructure") fms
           = Some (JStr (formattingAndStructure f)).
Proof.
  split.
  - destruct j as [| | | | | |fms]; try discriminate.
    unfold validate_Feedback.
    destruct (required (lit "keywordMatch") validate_str fms) as [k|] eqn:Hk;
      [|discriminate].
    destruct (required (lit "contentImpact") validate_str fms) as [c|] eqn:Hc;
      [|discriminate].
    destruct (required (lit "formattingAndStructure") validate_str fms)
      as [s|] eqn:Hs; [|discriminate].
    intros H; injection H as <-. exists fms.
    apply required_str_inv in Hk, Hc, Hs. cbn. auto.
  - intros (fms & -> & Hk & Hc & Hs).
    apply required_str_inv in Hk, Hc, Hs.
    unfold validate_Feedback. rewrite Hk, Hc, Hs. now destruct f.
Qed.

(** A decoded reply becomes a report exactly when it has the members of
    the schema with values of the right kind. *)
Lemma validate_ATSResult_inv {P : Pydantic} (j : json) (r : ATSResult) :
  validate_ATSResult j = Some r
  <-> exists ms sj fms,
        j = JObject ms
        /\ get_member (lit "score") ms = Some sj
        /\ validate_int sj = Some (score r)
        /\ get_member (lit "summary") ms = Some (JStr (summary r))
        /\ get_member (lit "feedback") ms = Some (JObject fms)
        /\ get_member (lit "keywordMatch") fms
           = Some (JStr (keywordMatch (feedback r)))
        /\ get_member (lit "contentImpact") fms
           = Some (JStr (contentImpact (feedback r)))
        /\ get_member (lit "formattingAndStructure") fms
           = Some (JStr (formattingAndStructure (feedback r))).
Proof.
  split.
  - destruct j as [| | | | | |ms]; try discriminate.
    unfold validate_ATSResult.
    destruct (required (lit "score") validate_int ms) as [sc|] eqn:Hsc;
      [|discriminate].
    destruct (required (lit "summary") validate_str ms) as [su|] eqn:Hsu;
      [|discriminate].
    destruct (required (lit "feedback") validate_Feedback ms) as [fb|] eqn:Hfb;
      [|discriminate].
    intros H; injection H as <-. cbn [score summary feedback].
    apply required_str_inv in Hsu.
    unfold required in Hsc, Hfb.
    destruct (get_member (lit "score") ms) as [sj|] eqn:Gs; [|discriminate].
    destruct (get_member (lit "feedback") ms) as [fj|] eqn:Gf; [|discriminate].
    apply validate_Feedback_inv in Hfb as (fms & -> & Hk & Hc & Hf).
    exists ms, sj, fms. repeat split; auto.
  - intros (ms & sj & fms & -> & Gs & Hs & Gsu & Gf & Hk & Hc & Hf).
    unfold validate_ATSResult.
    apply required_str_inv in Gsu. rewrite Gsu.
    unfold required at 1. rewrite Gs, Hs.
    unfold required. rewrite Gf.
    replace (validate_Feedback (JObject fms)) with (Some (feedback r)).
    + now destruct r.
    + symmetry. apply validate_Feedback_inv. eauto.
Qed.

Lemma get_member_app (name : str) (ms extra : list (str * json)) (v : json) :
  get_member name ms = Some v -> get_member name (ms ++ extra) = Some v.
Proof.
  induction ms as [|[k x] ms IH]; [discriminate|].
  cbn. destruct (str_eqb k name); auto.
Qed.

(** X4: members beyond those of the schema do not matter: a report
    object, and a feedback object, that validate still validate, to the
    same value, when further members follow their own. *)
Theorem additional_members_are_ignored {P : Pydantic}
    (ms extra fms fextra : list (str * json)) (r : ATSResult) (f : Feedback) :
  validate_ATSResult (JObject ms) = Some r ->
  validate_Feedback (JObject fms) = Some f ->
  validate_ATSResult (JObject (ms ++ extra)) = Some r
  /\ validate_Feedback (JObject (fms ++ fextra)) = Some f.
Proof.
  intros Hval Hfb. split.
  - apply validate_ATSResult_inv in Hval
      as (ms' & sj & fms' & E & Gs & Hs & Gsu & Gf & Hk & Hc & Hf).
    injection E as <-.
    apply validate_ATSResult_inv. exists (ms ++ extra), sj, fms'.
    repeat split; auto using get_member_app.
  - apply validate_Feedback_inv in Hfb as (fms' & E & Hk & Hc & Hf).
    injection E as <-.
    apply validate_Feedback_inv. exists (fms ++ fextra).
    repeat split; auto using get_member_app.
Qed.

(** The sample report with a [model] member added, and its feedback with
    a [tone] member added. *)
Lemma additional_members_witness :
  validate_ATSResult (P := Reference.library)
    (JObject (ATSResult_members sample_report
                (JObject (Feedback_members (feedback sample_report)))
              ++ [(lit "model", JStr (lit "gemini"))]))
  = Some sample_report
  /\ validate_Feedback
       (JObject (Feedback_members (feedback sample_report)
                 ++ [(lit "tone", JStr (lit "kind"))]))
     = Some (feedback sample_report).
Proof.
  apply (@additional_members_are_ignored Reference.library
           (ATSResult_members sample_report
              (JObject (Feedback_members (feedback sample_report))))
           [(lit "model", JStr (lit "gemini"))]
           (Feedback_members (feedback sample_report))
           [(lit "tone", JStr (lit "kind"))]
           sample_report (feedback sample_report)).
  - reflexivity.
  - reflexivity.
Defined.

(** ** The colour of a score *)

(** X5: the colour of the score card is green exactly for scores of 80
    and more, orange exactly from 60 to 79, red exactly below 60; every
    integer has a colour, scores outside 0 to 100 included. *)
Theorem score_colour_bands (score : Z) :
  (get_score_color_style score = lit "green" <-> (80 <= score)%Z)
  /\ (get_score_color_style score = lit "orange" <-> (60 <= score < 80)%Z)
  /\ (get_score_color_style score = lit "red" <-> (score < 60)%Z).
Proof.
  unfold get_score_color_style.
  destruct (Z.geb_spec score 80); [|destruct (Z.geb_spec score 60)];
    repeat split; intros; try lia; try reflexivity;
    match goal with
    | E : _ = _ |- _ => vm_compute in E; discriminate E
    end.
Qed.

(** ** Two submissions, one prompt *)

Lemma user_query_separator (resume_text jd_text : str) :
  user_query resume_text jd_text
  = (nl ++ lit "    Analyze the following RESUME against the JOB DESCRIPTION."
     ++ nl ++ nl ++ lit "    ---" ++ nl ++ lit "    RESUME TEXT:" ++ nl
     ++ lit "    ")
    ++ resume_text ++ jd_separator ++ jd_text ++ nl ++ lit "    ".
Proof.
  unfold user_query, jd_separator. now rewrite <- !app_assoc.
Qed.

(** X6: the prompt does not keep the two texts apart.  A resume that
    goes on with the separator lines of the prompt and some text [x]
    gives, with job description [j], the same request as the resume
    alone with the job description [x], separator, [j]; the two
    submissions differ, and the analysis cannot tell them apart. *)
Theorem prompt_does_not_separate_inputs {P : Pydantic}
    (resume_text x jd_text : str) (client : Client) (w : world) :
  resume_text ++ jd_separator ++ x <> resume_text
  /\ analysis_request (resume_text ++ jd_separator ++ x) jd_text
     = analysis_request resume_text (x ++ jd_separator ++ jd_text)
  /\ analyze_resume_ats client (resume_text ++ jd_separator ++ x) jd_text w
     = analyze_resume_ats client resume_text (x ++ jd_separator ++ jd_text) w.
Proof.
  assert (Hreq : analysis_request (resume_text ++ jd_separator ++ x) jd_text
                 = analysis_request resume_text (x ++ jd_separator ++ jd_text)).
  { unfold analysis_request. rewrite !user_query_separator.
    now rewrite <- !app_assoc. }
  split; [|split].
  - intros H. apply (f_equal (@List.length N)) in H.
    rewrite !length_app in H. cbn in H. lia.
  - exact Hreq.
  - unfold analyze_resume_ats. now rewrite Hreq.
Qed.

(** ** Every extraction *)

Lemma errors_warnings (texts : list str) : errors (warnings texts) = [].
Proof.
  unfold warnings.
  induction (filter (fun s => negb (truthy s)) texts); [reflexivity|assumption].
Qed.

(** The loop over any pages: it returns or raises, and on the way writes
    warnings only. *)
Lemma for_page_runs (pages : list Page) (acc : str) (w : world) :
  exists (res : result str) (t : list event),
    for_page pages acc w = (res, extend t w)
    /\ sent t = 0%nat /\ errors t = [].
Proof.
  revert acc w. induction pages as [|page rest IH]; intros acc w.
  - exists (Return acc), []. now rewrite extend_nil.
  - cbn [for_page]. unfold bind at 1, call.
    destruct (extract_text page) as [page_text|e].
    + destruct (truthy page_text).
      * apply IH.
      * unfold bind at 1, st, perform.
        destruct (IH acc (emit (St warning page_warning) w))
          as (res & t & Hrun & Hs & He).
        exists res, (St warning page_warning :: t).
        rewrite Hrun, emit_extend, extend_extend by reflexivity.
        repeat split; assumption.
    + exists (Raise e), []. now rewrite extend_nil.
Qed.

(** How any extraction ends. *)
Lemma extract_outcome (uploaded_file : UploadedFile) (w : world) :
  exists (v : option str) (t : list event),
    extract_text_from_pdf uploaded_file w = (Return v, extend t w)
    /\ sent t = 0%nat
    /\ match v with
       | Some text => blank text = false /\ truthy text = true /\ errors t = []
       | None =>
           exists msg, errors t = [msg] /\ last t (Sleep 0) = St error msg
       end.
Proof.
  unfold extract_text_from_pdf, try_except. unfold bind at 1, call.
  destruct (PdfReader uploaded_file) as [pages|e].
  - unfold bind at 1.
    destruct (for_page_runs pages [] w) as (res & t & -> & Hs & He).
    destruct res as [text|e].
    + rewrite truthy_strip.
      destruct (blank text) eqn:Hb; cbn [negb].
      * exists None, (t ++ [St error no_text_error]).
        unfold bind, st, perform, ret.
        rewrite emit_extend, extend_extend by reflexivity.
        split; [reflexivity|]. split.
        -- rewrite sent_app, Hs. reflexivity.
        -- exists no_text_error. rewrite errors_app, He, last_last. auto.
      * exists (Some text), t. unfold ret.
        split; [reflexivity|]. split; [exact Hs|].
        split; [exact Hb|]. split; [|exact He].
        destruct text; [discriminate Hb|reflexivity].
    + exists None, (t ++ [St error (pdf_reading_error e)]).
      unfold bind, st, perform, ret.
      rewrite emit_extend, extend_extend by reflexivity.
      split; [reflexivity|]. split.
      * rewrite sent_app, Hs. reflexivity.
      * exists (pdf_reading_error e). rewrite errors_app, He, last_last. auto.
  - exists None, [St error (pdf_reading_error e)].
    unfold bind, st, perform, ret.
    rewrite emit_extend by reflexivity.
    split; [reflexivity|]. split; [reflexivity|].
    exists (pdf_reading_error e). auto.
Qed.

(** X7: whatever the uploaded file is, the extraction returns, sends no
    request and leaves the cache alone; it gives either text that holds
    a character other than white space, with no error written, or
    [None], with exactly one error written, as its last element. *)
Theorem extraction_gives_text_or_one_error
    (uploaded_file : UploadedFile) (w : world) :
  exists (v : option str) (t : list event),
    extract_text_from_pdf uploaded_file w = (Return v, extend t w)
    /\ sent t = 0%nat
    /\ match v with
       | Some text => blank text = false /\ truthy text = true /\ errors t = []
       | None =>
           exists msg, errors t = [msg] /\ last t (Sleep 0) = St error msg
       end.
Proof. exact (extract_outcome uploaded_file w). Qed.

Lemma for_page_raises (texts : list str) (e : exn) (rest : list Page)
    (acc : str) (w : world) :
  for_page (List.map text_page texts ++ {| extract_text := Raise e |} :: rest)
           acc w
  = (Raise e, extend (warnings texts) w).
Proof.
  revert acc w. induction texts as [|s texts IH]; intros acc w.
  - cbn. unfold bind, call. cbn. now rewrite extend_nil.
  - cbn [List.map app for_page]. unfold bind at 1. cbn [call text_page extract_text].
    destruct s as [|c s]; cbn [truthy].
    + unfold bind at 1, st, perform.
      rewrite IH, emit_extend, extend_extend by reflexivity.
      reflexivity.
    + rewrite IH. reflexivity.
Qed.

(** X8: an exception while the document is opened, or while a page is
    read after pages that gave their text, makes the whole extraction
    return [None]: the text gathered so far is dropped, the later pages
    are not read, and the error names the exception after the warnings
    for the empty pages met before it. *)
Theorem exception_discards_gathered_text
    (uploaded_file : UploadedFile) (texts : list str) (e : exn)
    (rest : list Page) (w : world) :
  (PdfReader uploaded_file = Raise e /\ texts = [])
  \/ PdfReader uploaded_file
     = Return (List.map text_page texts
               ++ {| extract_text := Raise e |} :: rest) ->
  extract_text_from_pdf uploaded_file w
  = (Return None,
     extend (warnings texts
             ++ [St error ([10060%N]
                           ++ lit " An error occurred during PDF reading: "
                           ++ exn_str e)]) w).
Proof.
  intros [[Hread ->]|Hread];
    unfold extract_text_from_pdf, try_except; unfold bind at 1, call;
    rewrite Hread.
  - unfold bind, st, perform, ret. now rewrite emit_extend by reflexivity.
  - unfold bind at 1. rewrite for_page_raises.
    unfold bind, st, perform, ret.
    now rewrite emit_extend, extend_extend by reflexivity.
Qed.

(** The first page gives text, reading the second raises. *)
Lemma exception_discards_witness :
  extract_text_from_pdf damaged_pdf fresh
  = (Return None,
     extend (warnings [lit "Jane Doe"]
             ++ [St error ([10060%N]
                           ++ lit " An error occurred during PDF reading: "
                           ++ lit "Unexpected end of stream")]) fresh).
Proof.
  apply (exception_discards_gathered_text damaged_pdf [lit "Jane Doe"]
           {| exn_class := OtherException;
              exn_str := lit "Unexpected end of stream" |} [] fresh).
  right. reflexivity.
Defined.

(** ** The cached client *)

Lemma written_elements (t : list event) :
  Forall (fun e => exists what body, e = St what body) t ->
  written (elements t) = t.
Proof.
  induction 1 as [|e t (what & body & ->) _ IH]; [reflexivity|].
  cbn. unfold written in IH. now rewrite IH.
Qed.

(** What the body of the factory does: it returns, and writes page
    elements only. *)
Lemma factory_body_runs (s : session) (w : world) :
  exists v t,
    get_gemini_client_body s w = (Return v, extend t w)
    /\ Forall (fun e => exists what body, e = St what body) t.
Proof.
  unfold get_gemini_client_body.
  destruct (key_missing (GEMINI_API_KEY s)).
  - exists None, [St error key_not_found_error; St info key_not_found_info].
    unfold bind, st, perform, ret.
    rewrite !emit_extend, extend_extend by reflexivity.
    split; [reflexivity|]. repeat constructor; eauto.
  - unfold try_except, bind, call.
    destruct (genai_Client s) as [c|e].
    + exists (Some c), []. unfold ret. rewrite extend_nil.
      split; [reflexivity|constructor].
    + exists None, [St error (init_failed_error e)].
      unfold st, perform, ret. rewrite emit_extend by reflexivity.
      split; [reflexivity|]. repeat constructor; eauto.
Qed.

(** X9: the client factory runs once in a process.  When its first call
    (cold cache) returns [v], a client or [None], after writing the
    elements [t], every later call, under whatever environment, returns
    that same [v] and writes those same elements [t] again, sends
    nothing and leaves the cache as it is: the key is not looked at and
    no client is constructed again. *)
Theorem factory_result_is_kept
    (s : session) (w : world) (v : option Client) (w1 : world) :
  resource_cache w = None ->
  get_gemini_client s w = (Return v, w1) ->
  exists t,
    trace w1 = trace w ++ t
    /\ sent t = 0%nat
    /\ get_gemini_client_body s w = (Return v, extend t w)
    /\ forall (s' : session) (w2 : world),
         resource_cache w2 = resource_cache w1 ->
         exists w3,
           get_gemini_client s' w2 = (Return v, w3)
           /\ trace w3 = trace w2 ++ t
           /\ requests w3 = requests w2
           /\ resource_cache w3 = resource_cache w2.
Proof.
  intros Hc. unfold get_gemini_client at 1, cache_resource. rewrite Hc.
  destruct (factory_body_runs s w) as (v' & t & Hbody & Hst).
  rewrite Hbody. intros H. injection H as <- <-. exists t.
  assert (Hsent : sent t = 0%nat).
  { clear - Hst. induction Hst as [|e t (what & body & ->) _ IH];
      [reflexivity|exact IH]. }
  split; [reflexivity|]. split; [exact Hsent|]. split; [reflexivity|].
  intros s' w2 Hc2. cbn [store resource_cache] in Hc2.
  rewrite (get_client_cached s' w2 _ Hc2). eexists.
  split; [reflexivity|].
  cbn [replay cached_value cached_elements trace requests resource_cache
       extend].
  rewrite skipn_appended, (written_elements t Hst). auto.
Qed.

(** A first run without a key, then a run with a key and a working
    constructor: the two messages of the first run come again. *)
Lemma factory_result_witness :
  exists w3,
    get_gemini_client (ready_session (scripted [Response sample_reply])
                         None [] false)
      (snd (get_gemini_client (keyless_session (scripted []) None [] false)
              fresh))
    = (Return None, w3)
    /\ trace w3
       = [ St error key_not_found_error; St info key_not_found_info;
           St error key_not_found_error; St info key_not_found_info ]
    /\ requests w3 = 0%nat.
Proof.
  destruct (factory_result_is_kept
              (keyless_session (scripted []) None [] false) fresh None
              (snd (get_gemini_client
                      (keyless_session (scripted []) None [] false) fresh)))
    as (t & Ht & _ & Hbody & Hlater).
  - reflexivity.
  - reflexivity.
  - destruct (Hlater (ready_session (scripted [Response sample_reply])
                        None [] false)
                (snd (get_gemini_client
                        (keyless_session (scripted []) None [] false) fresh))
                eq_refl)
      as (w3 & Hrun & Ht3 & Hr3 & _).
    exists w3. split; [exact Hrun|].
    assert (Et : t = [St error key_not_found_error; St info key_not_found_info]).
    { vm_compute in Hbody. injection Hbody as Hbody.
      exact (eq_sym Hbody). }
    rewrite Ht3, Hr3, Et. split; reflexivity.
Defined.

(** A run that finds the cache holding [None] writes the title and the
    kept elements, and stops. *)
Lemma run_with_cached_none {P : Pydantic} (s : session) (w : world)
    (entry : cache_entry) :
  resource_cache w = Some entry ->
  cached_value entry = None ->
  exists w',
    main_app s w = (Return tt, w')
    /\ trace w' = trace w ++ no_client_run entry
    /\ requests w' = requests w
    /\ resource_cache w' = Some entry.
Proof.
  intros Hc Hv. unfold main_app. unfold bind at 1. unfold st at 1, perform at 1.
  unfold bind at 1.
  rewrite (get_client_cached s (emit (St title app_title) w) entry) by exact Hc.
  rewrite Hv. eexists. split; [reflexivity|]. cbn.
  rewrite <- !app_assoc. repeat split. exact Hc.
Qed.

Lemma reruns_with_cached_none {P : Pydantic} (sessions : list session)
    (w : world) (entry : cache_entry) :
  resource_cache w = Some entry ->
  cached_value entry = None ->
  exists w',
    reruns sessions w = (Return tt, w')
    /\ trace w'
       = trace w
         ++ List.concat (List.map (fun _ => no_client_run entry) sessions)
    /\ requests w' = requests w.
Proof.
  revert w. induction sessions as [|s rest IH]; intros w Hc Hv.
  - exists w. cbn. now rewrite app_nil_r.
  - destruct (run_with_cached_none s w entry Hc Hv)
      as (w1 & Hrun & Ht & Hr & Hc1).
    destruct (IH w1 Hc1 Hv) as (w' & Hrest & Ht' & Hr').
    exists w'. cbn [reruns]. unfold bind at 1. rewrite Hrun.
    split; [exact Hrest|]. split.
    + rewrite Ht', Ht. cbn [List.map List.concat]. now rewrite <- !app_assoc.
    + now rewrite Hr', Hr.
Qed.

Lemma get_client_init_failed (s : session) (w : world) (e : exn) :
  resource_cache w = None ->
  key_missing (GEMINI_API_KEY s) = false ->
  genai_Client s = Raise e ->
  get_gemini_client s w
  = (Return None,
     store {| cached_value := None;
              cached_elements := [(error, init_failed_error e)] |}
           (extend [St error (init_failed_error e)] w)).
Proof.
  intros Hc Hk He.
  unfold get_gemini_client, cache_resource, get_gemini_client_body.
  rewrite Hc, Hk. unfold try_except, bind, call. rewrite He. cbn.
  rewrite skipn_appended. cbn.
  unfold store, extend. cbn. now rewrite Nat.add_0_r.
Qed.

(** X10: when the key is set but constructing the client raises, the
    first run writes the title and [Failed to initialize Gemini Client]
    with the exception, and stops; that failure is kept, so every later
    run in the process, whatever its environment and widgets, writes the
    same two elements and stops as well, and no request is ever sent. *)
Theorem failed_construction_is_kept {P : Pydantic}
    (s : session) (later : list session) (w : world) (e : exn) :
  resource_cache w = None ->
  key_missing (GEMINI_API_KEY s) = false ->
  genai_Client s = Raise e ->
  exists w',
    reruns (s :: later) w = (Return tt, w')
    /\ trace w'
       = trace w
         ++ List.concat
              (List.map
                 (fun _ =>
                    [ St title app_title;
                      St error ([10060%N]
                                ++ lit " Failed to initialize Gemini Client: "
                                ++ exn_str e) ])
                 (s :: later))
    /\ requests w' = requests w.
Proof.
  intros Hc Hk He.
  set (entry := {| cached_value := None;
                   cached_elements := [(error, init_failed_error e)] |}).
  assert (Hfirst : exists w1,
             main_app s w = (Return tt, w1)
             /\ trace w1 = trace w ++ no_client_run entry
             /\ requests w1 = requests w
             /\ resource_cache w1 = Some entry).
  { unfold main_app. unfold bind at 1. unfold st at 1, perform at 1.
    unfold bind at 1.
    rewrite (get_client_init_failed s (emit (St title app_title) w) e)
      by assumption.
    eexists. split; [reflexivity|]. cbn.
    rewrite <- !app_assoc. repeat split. lia. }
  destruct Hfirst as (w1 & Hrun & Ht & Hr & Hc1).
  destruct (reruns_with_cached_none later w1 entry Hc1 eq_refl)
    as (w' & Hrest & Ht' & Hr').
  exists w'. cbn [reruns]. unfold bind at 1. rewrite Hrun.
  split; [exact Hrest|]. split.
  - rewrite Ht', Ht. cbn [List.map List.concat]. now rewrite <- !app_assoc.
  - now rewrite Hr', Hr.
Qed.

(** A failed construction, then a run with a working constructor, a
    resume, a job description and the button pressed. *)
Lemma failed_construction_witness :
  exists w',
    reruns (P := Reference.library)
      (failing_session connect_error None [] false
       :: [ready_session (scripted [Response sample_reply])
              (Some resume_pdf) (lit "job") true]) fresh
    = (Return tt, w')
    /\ trace w'
       = trace fresh
         ++ List.concat
              (List.map
                 (fun _ =>
                    [ St title app_title;
                      St error ([10060%N]
                                ++ lit " Failed to initialize Gemini Client: "
                                ++ exn_str connect_error) ])
                 (failing_session connect_error None [] false
                  :: [ready_session (scripted [Response sample_reply])
                        (Some resume_pdf) (lit "job") true]))
    /\ requests w' = requests fresh.
Proof.
  apply (@failed_construction_is_kept Reference.library
           (failing_session connect_error None [] false)
           [ready_session (scripted [Response sample_reply])
              (Some resume_pdf) (lit "job") true]
           fresh connect_error).
  - reflexivity.
  - reflexivity.
  - reflexivity.
Defined.

(** ** Runs of the script *)

Lemma run_of_bind {A B : Type} (c : M A) (k : A -> M B) (w w1 w2 : world)
    (a : A) (b : B) (t u : list event) :
  run_of c w a t w1 -> run_of (k a) w1 b u w2 ->
  run_of (bind c k) w b (t ++ u) w2.
Proof.
  intros (Hc & Ht & Hr) (Hk & Hu & Hq). unfold run_of, bind.
  rewrite Hc. split; [exact Hk|]. split.
  - now rewrite Hu, Ht, app_assoc.
  - rewrite Hq, Hr, sent_app. lia.
Qed.

Lemma run_of_extend {A : Type} (c : M A) (w : world) (a : A) (t : list event) :
  c w = (Return a, extend t w) -> run_of c w a t (extend t w).
Proof. intros H. repeat split. exact H. Qed.

Lemma run_of_ret {A : Type} (a : A) (w : world) : run_of (ret a) w a [] w.
Proof.
  unfold run_of, ret. cbn. now rewrite app_nil_r, Nat.add_0_r.
Qed.

Lemma run_of_st (what : element) (body : str) (w : world) :
  run_of (st what body) w tt [St what body] (emit (St what body) w).
Proof.
  unfold run_of, st, perform. cbn. now rewrite Nat.add_0_r.
Qed.

Lemma run_of_quiet {A : Type} (c : M A) (w : world) :
  quiet c -> exists a t w', run_of c w a t w' /\ sent t = 0%nat.
Proof.
  intros Hq. destruct (Hq w) as (a & w' & t & Hc & Ht & Hs & Hr).
  exists a, t, w'. unfold run_of. rewrite Hs, Nat.add_0_r. auto.
Qed.

Lemma display_report_run (r : ATSResult) (w : world) :
  display_report r w = (Return tt, extend (report_elements r) w).
Proof.
  unfold display_report, bind, st, perform, extend, emit, report_elements.
  cbn. rewrite <- !app_assoc. cbn. now rewrite Nat.add_0_r.
Qed.

(** The extraction from pages of text, one of them not blank. *)
Lemma extract_texts (uploaded_file : UploadedFile) (texts : list str)
    (w : world) :
  PdfReader uploaded_file = Return (List.map text_page texts) ->
  forallb blank texts = false ->
  extract_text_from_pdf uploaded_file w
  = (Return (Some (gathered texts)), extend (warnings texts) w).
Proof.
  intros Hread Hall.
  unfold extract_text_from_pdf, try_except, bind, call.
  rewrite Hread, for_page_texts. cbn [app].
  now rewrite truthy_strip, blank_gathered, Hall.
Qed.

Section Runs.
Context {P : Pydantic}.

(** How pressing the button ends: at most three requests, and none when
    a file, its text or the job description is missing. *)
Lemma on_button_runs (client : Client) (uploaded_file : option UploadedFile)
    (resume_text : option str) (jd_text : str) (w : world) :
  exists t w',
    run_of (on_button client uploaded_file resume_text jd_text) w tt t w'
    /\ (sent t <= 3)%nat
    /\ (uploaded_file = None \/ resume_text = None \/ jd_text = [] ->
        sent t = 0%nat).
Proof.
  unfold on_button.
  destruct uploaded_file as [f|];
    [destruct resume_text as [resume|];
     [destruct (truthy resume) eqn:Hres; cbn [negb];
      [destruct (truthy jd_text) eqn:Hjd; cbn [negb]|]|]|];
    try (do 2 eexists; split; [apply run_of_st|];
         split; [cbn; lia|reflexivity]).
  destruct (analyze_shape client resume jd_text w)
    as (v & k & final & Hk & Hrun & Hfinal).
  apply run_of_extend in Hrun.
  assert (Hsent : sent (backoff (analysis_request resume jd_text) k
                        ++ GenerateContent (analysis_request resume jd_text)
                           :: final) = S k).
  { rewrite sent_app, sent_backoff.
    destruct v as [r|]; [rewrite Hfinal|destruct Hfinal as (msg & ->)];
      cbn; lia. }
  destruct v as [r|].
  - do 2 eexists. split.
    + eapply run_of_bind; [exact Hrun|].
      apply run_of_extend, display_report_run.
    + rewrite sent_app, Hsent. cbn. split; [lia|].
      intros [H|[H|H]]; try discriminate. subst. discriminate.
  - do 2 eexists. split.
    + eapply run_of_bind; [exact Hrun|apply run_of_ret].
    + rewrite sent_app, Hsent. cbn. split; [lia|].
      intros [H|[H|H]]; try discriminate. subst. discriminate.
Qed.

(** How any run of the script ends. *)
Lemma main_app_runs (s : session) (w : world) :
  exists t w',
    run_of (main_app s) w tt t w'
    /\ (sent t <= 3)%nat
    /\ (button s = false \/ file_uploader s = None \/ text_area s = [] ->
        sent t = 0%nat).
Proof.
  unfold main_app.
  destruct (run_of_quiet (get_gemini_client s) (emit (St title app_title) w)
              (quiet_get_gemini_client s))
    as (v & t1 & w1 & Hget & Hs1).
  destruct v as [client|].
  2:{ do 2 eexists. split.
      - eapply run_of_bind; [apply run_of_st|].
        eapply run_of_bind; [exact Hget|apply run_of_ret].
      - cbn [app]. change (sent (St title app_title :: ?x)) with (sent x).
        rewrite sent_app, Hs1. cbn. split; [lia|reflexivity]. }
  assert (Hstage : exists rt t2 w2,
             run_of (match file_uploader s with
                     | None => ret None
                     | Some f =>
                         bind (extract_text_from_pdf f)
                           (fun resume_text =>
                              match resume_text with
                              | Some t =>
                                  if truthy t then
                                    bind (st info extracted_info)
                                      (fun _ => bind (st text_ t)
                                         (fun _ => ret resume_text))
                                  else ret resume_text
                              | None => ret resume_text
                              end)
                     end) w1 rt t2 w2
             /\ sent t2 = 0%nat
             /\ (file_uploader s = None -> rt = None)).
  { destruct (file_uploader s) as [f|].
    - destruct (extract_outcome f w1) as (rt & tx & Hx & Hsx & _).
      apply run_of_extend in Hx.
      destruct rt as [text|]; [destruct (truthy text) eqn:Htr|].
      + do 3 eexists. split; [|split].
        * eapply run_of_bind; [exact Hx|]. cbn beta iota. rewrite Htr.
          eapply run_of_bind; [apply run_of_st|].
          eapply run_of_bind; [apply run_of_st|apply run_of_ret].
        * rewrite sent_app, Hsx. reflexivity.
        * discriminate.
      + do 3 eexists. split; [|split].
        * eapply run_of_bind; [exact Hx|]. cbn beta iota. rewrite Htr.
          apply run_of_ret.
        * rewrite sent_app, Hsx. reflexivity.
        * discriminate.
      + do 3 eexists. split; [|split].
        * eapply run_of_bind; [exact Hx|apply run_of_ret].
        * rewrite sent_app, Hsx. reflexivity.
        * discriminate.
    - do 3 eexists. split; [apply run_of_ret|]. split; reflexivity. }
  destruct Hstage as (rt & t2 & w2 & Hstage & Hs2 & Hnone).
  destruct (button s) eqn:Hb.
  - destruct (on_button_runs client (file_uploader s) rt (text_area s)
                (emit (St markdown (lit "---")) w2))
      as (t3 & w3 & Hbtn & Hle & Hzero).
    do 2 eexists. split.
    + eapply run_of_bind; [apply run_of_st|].
      eapply run_of_bind; [exact Hget|].
      eapply run_of_bind; [exact Hstage|].
      eapply run_of_bind; [apply run_of_st|exact Hbtn].
    + cbn [app]. change (sent (St title app_title :: ?x)) with (sent x).
      rewrite !sent_app, Hs1, Hs2.
      change (sent (St markdown (lit "---") :: t3)) with (sent t3).
      split; [lia|].
      intros [H|[H|H]]; [discriminate| |]; rewrite Hzero; auto.
  - do 2 eexists. split.
    + eapply run_of_bind; [apply run_of_st|].
      eapply run_of_bind; [exact Hget|].
      eapply run_of_bind; [exact Hstage|].
      eapply run_of_bind; [apply run_of_st|apply run_of_ret].
    + cbn [app]. change (sent (St title app_title :: ?x)) with (sent x).
      rewrite !sent_app, Hs1, Hs2. cbn. split; [lia|reflexivity].
Qed.

End Runs.

(** X11: a run sends nothing to the model unless the button is pressed,
    a file is uploaded and the job description is not empty: if any of
    the three is missing, the run returns with no request sent, whatever
    the key, the cache and the other widgets are. *)
Theorem no_request_without_inputs {P : Pydantic} (s : session) (w : world) :
  button s = false \/ file_uploader s = None \/ text_area s = [] ->
  exists t w',
    main_app s w = (Return tt, w')
    /\ trace w' = trace w ++ t
    /\ sent t = 0%nat
    /\ requests w' = requests w.
Proof.
  intros Hmiss.
  destruct (main_app_runs s w) as (t & w' & (Hrun & Ht & Hr) & _ & Hzero).
  exists t, w'. specialize (Hzero Hmiss).
  rewrite Hzero, Nat.add_0_r in Hr. auto.
Qed.

(** A resume, the button pressed, the job description left empty. *)
Lemma no_request_witness :
  exists t w',
    main_app (P := Reference.library)
      (ready_session (scripted [Response sample_reply])
                     (Some resume_pdf) [] true) fresh
    = (Return tt, w')
    /\ trace w' = trace fresh ++ t
    /\ sent t = 0%nat
    /\ requests w' = requests fresh.
Proof.
  apply (@no_request_without_inputs Reference.library
           (ready_session (scripted [Response sample_reply])
                          (Some resume_pdf) [] true) fresh).
  right; right. reflexivity.
Defined.

(** X12: the script never raises and never sends more than three
    requests in one run: after any number of runs, under any
    environments and widgets, the requests sent are at most three times
    the number of runs, and the count of requests agrees with the
    trace. *)
Theorem at_most_three_requests_per_run {P : Pydantic}
    (sessions : list session) (w : world) :
  exists t w',
    reruns sessions w = (Return tt, w')
    /\ trace w' = trace w ++ t
    /\ requests w' = (requests w + sent t)%nat
    /\ (sent t <= 3 * List.length sessions)%nat.
Proof.
  revert w. induction sessions as [|s rest IH]; intros w.
  - exists [], w. cbn. rewrite app_nil_r, Nat.add_0_r. auto.
  - destruct (main_app_runs s w) as (t1 & w1 & Hrun & Hle & _).
    destruct (IH w1) as (t2 & w2 & Hrest & Ht2 & Hr2 & Hle2).
    exists (t1 ++ t2), w2.
    assert (Hall : run_of (reruns (s :: rest)) w tt (t1 ++ t2) w2).
    { cbn [reruns]. eapply run_of_bind; [exact Hrun|].
      repeat split; assumption. }
    destruct Hall as (Ha & Hb & Hc).
    repeat split; auto.
    rewrite sent_app. cbn [List.length]. lia.
Qed.

(** X13: with the client at hand, a document whose pages give text (not
    all of it white space), a job description that is not empty (white
    space alone is enough) and the button pressed, the run shows the
    extracted text, then analyses exactly that text with the job
    description as typed: the first request carries both; and the report
    is displayed exactly when the analysis returns one. *)
Theorem submission_is_analysed_and_shown {P : Pydantic}
    (s : session) (client : Client) (w1 : world)
    (uploaded_file : UploadedFile) (texts : list str) (w : world) :
  get_gemini_client s (emit (St title app_title) w)
  = (Return (Some client), w1) ->
  file_uploader s = Some uploaded_file ->
  PdfReader uploaded_file = Return (List.map text_page texts) ->
  forallb blank texts = false ->
  truthy (text_area s) = true ->
  button s = true ->
  exists (v : option ATSResult) (rest : list event),
    analyze_resume_ats client (gathered texts) (text_area s)
      (extend (warnings texts
               ++ [ St info extracted_info;
                    St text_ (gathered texts);
                    St markdown (lit "---") ]) w1)
    = (Return v,
       extend (warnings texts
               ++ [ St info extracted_info;
                    St text_ (gathered texts);
                    St markdown (lit "---") ]
               ++ GenerateContent
                    (analysis_request (gathered texts) (text_area s))
                  :: rest) w1)
    /\ main_app s w
       = (Return tt,
          extend (warnings texts
                  ++ [ St info extracted_info;
                       St text_ (gathered texts);
                       St markdown (lit "---") ]
                  ++ GenerateContent
                       (analysis_request (gathered texts) (text_area s))
                     :: rest
                  ++ match v with
                     | Some r => report_elements r
                     | None => []
                     end) w1).
Proof.
  intros Hget Hfile Hread Hall Hjd Hb.
  set (pre := warnings texts
              ++ [ St info extracted_info; St text_ (gathered texts);
                   St markdown (lit "---") ]).
  assert (Htext : truthy (gathered texts) = true).
  { destruct (gathered texts) eqn:E; [|reflexivity].
    pose proof (blank_gathered texts) as Hg. rewrite E, Hall in Hg.
    discriminate Hg. }
  destruct (analyze_shape client (gathered texts) (text_area s) (extend pre w1))
    as (v & k & final & Hk & Hrun & Hfinal).
  assert (Hfirst : exists rest,
             backoff (analysis_request (gathered texts) (text_area s)) k
             ++ GenerateContent (analysis_request (gathered texts) (text_area s))
                :: final
             = GenerateContent (analysis_request (gathered texts) (text_area s))
               :: rest).
  { destruct k as [|k]; [now exists final|].
    unfold backoff. cbn [seq List.map flat_map app]. eauto. }
  destruct Hfirst as (rest & Hrest). rewrite Hrest in Hrun.
  exists v, rest. split.
  - rewrite Hrun, extend_extend. unfold pre. now rewrite <- !app_assoc.
  - unfold main_app. unfold bind at 1. unfold st at 1, perform at 1.
    unfold bind at 1. rewrite Hget, Hfile.
    unfold bind at 1. unfold bind at 1.
    rewrite (extract_texts uploaded_file texts w1 Hread Hall), Htext.
    unfold bind at 1. unfold st at 1, perform at 1.
    unfold bind at 1. unfold st at 1, perform at 1.
    unfold ret at 1.
    unfold bind at 1. unfold st at 1, perform at 1.
    rewrite Hb. unfold on_button. rewrite Htext, Hjd. cbn [negb].
    rewrite !emit_extend, !extend_extend by reflexivity.
    rewrite <- ?app_assoc. cbn [app].
    unfold bind at 1. fold pre. rewrite Hrun.
    destruct v as [r|].
    + rewrite display_report_run, !extend_extend.
      unfold pre. now rewrite <- !app_assoc.
    + unfold ret. rewrite !extend_extend, app_nil_r.
      unfold pre. now rewrite <- !app_assoc.
Qed.

(** Two pages of text, a job description of one space, the button
    pressed, and the sample reply. *)
Lemma submission_witness :
  exists (v : option ATSResult) (rest : list event),
    main_app (P := Reference.library)
      (ready_session (scripted [Response sample_reply])
                     (Some resume_pdf) (lit " ") true) fresh
    = (Return tt,
       extend (warnings [lit "Jane Doe"; lit "Python"]
               ++ [ St info extracted_info;
                    St text_ (gathered [lit "Jane Doe"; lit "Python"]);
                    St markdown (lit "---") ]
               ++ GenerateContent
                    (analysis_request (P := Reference.library)
                       (gathered [lit "Jane Doe"; lit "Python"]) (lit " "))
                  :: rest
               ++ match v with
                  | Some r => report_elements r
                  | None => []
                  end)
              (snd (get_gemini_client
                      (ready_session (scripted [Response sample_reply])
                                     (Some resume_pdf) (lit " ") true)
                      (emit (St title app_title) fresh)))).
Proof.
  destruct (@submission_is_analysed_and_shown Reference.library
              (ready_session (scripted [Response sample_reply])
                             (Some resume_pdf) (lit " ") true)
              (scripted [Response sample_reply])
              (snd (get_gemini_client
                      (ready_session (scripted [Response sample_reply])
                                     (Some resume_pdf) (lit " ") true)
                      (emit (St title app_title) fresh)))
              resume_pdf [lit "Jane Doe"; lit "Python"] fresh)
    as (v & rest & _ & Hrun); try reflexivity.
  exists v, rest. exact Hrun.
Defined.

(** * Where the retry and the validation stop *)

(** A failure that is not an [APIError] gets no sleep and no second
    attempt: here the connection drops on the first attempt, two
    attempts remain and the service would have answered the second, yet
    the analysis returns [None] after one request. *)
Lemma backoff_counterexample :
  respond (scripted [Failure connect_error; Response sample_reply])
          0 sample_request
  = Failure connect_error
  /\ isinstance connect_error APIError = false
  /\ exists w',
       analyze_resume_ats (P := Reference.library)
         (scripted [Failure connect_error; Response sample_reply])
         (lit "resume") (lit "job") fresh
       = (Return None, w')
       /\ trace w'
          = [ GenerateContent sample_request;
              St error (lit "An unexpected error occurred during analysis: "
                        ++ exn_str connect_error) ]
       /\ slept (trace w') = []
       /\ requests w' = 1%nat.
Proof.
  split; [reflexivity|]. split; [reflexivity|].
  eexists. split; [vm_compute; reflexivity|].
  repeat split.
Qed.

(** A service whose connection drops on every attempt is asked once, and
    the report is that of an unexpected error, not that of three failed
    attempts. *)
Lemma exhaustion_counterexample :
  (forall n,
      respond {| respond := fun _ _ => Failure connect_error |}
              n sample_request
      = Failure connect_error)
  /\ isinstance connect_error APIError = false
  /\ exists w',
       analyze_resume_ats (P := Reference.library)
         {| respond := fun _ _ => Failure connect_error |}
         (lit "resume") (lit "job") fresh
       = (Return None, w')
       /\ errors (trace w')
          = [ lit "An unexpected error occurred during analysis: "
              ++ exn_str connect_error ]
       /\ errors (trace w')
          <> [ lit "Failed to get a response after 3 attempts. API Error: "
               ++ exn_str connect_error ]
       /\ requests w' = 1%nat.
Proof.
  split; [reflexivity|]. split; [reflexivity|].
  eexists. split; [vm_compute; reflexivity|].
  split; [reflexivity|]. split; [|reflexivity].
  intros H. vm_compute in H. discriminate H.
Qed.

(** A score written as the string [87] is a mistyped field, yet the lax
    mode reads it as 87: the reply validates, the report is returned and
    no error is written. *)
Lemma mistyped_score_counterexample :
  json_loads (Pydantic := Reference.library) string_score_reply
  = Some (JObject
            [ (lit "score", JStr (lit "87"));
              (lit "summary", JStr (lit "S"));
              (lit "feedback",
               JObject (Feedback_members (feedback sample_report))) ])
  /\ exists w',
       analyze_resume_ats (P := Reference.library)
         (scripted [Response string_score_reply])
         (lit "resume") (lit "job") fresh
       = (Return (Some sample_report), w')
       /\ errors (trace w') = []
       /\ requests w' = 1%nat.
Proof.
  split; [vm_compute; reflexivity|].
  eexists. split; [vm_compute; reflexivity|].
  split; reflexivity.
Qed.

(** What validation refuses, whatever the library's coercions are. *)
Lemma violation_is_refused {P : Pydantic} (json_data : str) :
  rejected_text json_data -> validate_json json_data = None.
Proof.
  unfold rejected_text, validate_json.
  destruct (json_loads json_data) as [j|]; [|reflexivity].
  intros Hbad.
  destruct (validate_ATSResult j) as [r|] eqn:Hval; [exfalso|reflexivity].
  apply validate_ATSResult_inv in Hval
    as (ms & sj & fms & -> & Gs & Hs & Gsu & Gf & Hk & Hc & Hf).
  cbn [violates_schema] in Hbad. rewrite Gs, Gsu, Gf, Hk, Hc, Hf in Hbad.
  unfold not_a_string in Hbad.
  destruct Hbad as [H|[H|[H|[H|H]]]]; try congruence; now eapply H.
Qed.

(** C4, amended: when the service, after [k < 3] [APIError]s, answers
    with text that validation refuses, the analysis returns [None] at
    once and reports a parse failure, with no sleep and no further
    request, whatever the number of attempts left.  Refused is text that
    does not decode, a reply that is not an object, a missing field, a
    summary or feedback text that is not a JSON string, a feedback that
    is not an object, and a score that integer validation does not
    take. *)
Theorem rejected_reply_not_retried {P : Pydantic}
    (client : Client) (resume_text jd_text : str) (w : world)
    (k : nat) (json_data : str) :
  (k < 3)%nat ->
  transient_failures client (analysis_request resume_text jd_text) w k ->
  respond client (requests w + k) (analysis_request resume_text jd_text)
  = Response json_data ->
  rejected_text json_data ->
  exists w',
    analyze_resume_ats client resume_text jd_text w = (Return None, w')
    /\ trace w'
       = trace w ++ backoff (analysis_request resume_text jd_text) k
         ++ [ GenerateContent (analysis_request resume_text jd_text);
              St error (lit "Failed to parse AI response (Invalid JSON structure). Error: "
                        ++ validation_error_str json_data) ]
    /\ requests w' = (requests w + k + 1)%nat.
Proof.
  intros Hk Hfail Hresp Hbad.
  apply schema_violation_not_retried; auto using violation_is_refused.
Qed.

(** A rate-limit answer, then a reply whose summary is a number. *)
Lemma rejected_reply_witness :
  exists w',
    analyze_resume_ats (P := Reference.library)
      (scripted [Failure rate_limited; Response number_summary_reply])
      (lit "resume") (lit "job") fresh = (Return None, w')
    /\ trace w'
       = trace fresh ++ backoff sample_request 1
         ++ [ GenerateContent sample_request;
              St error (lit "Failed to parse AI response (Invalid JSON structure). Error: "
                        ++ validation_error_str (Pydantic := Reference.library)
                             number_summary_reply) ]
    /\ requests w' = (requests fresh + 1 + 1)%nat.
Proof.
  apply (@rejected_reply_not_retried Reference.library
           (scripted [Failure rate_limited; Response number_summary_reply])
           (lit "resume") (lit "job") fresh 1%nat number_summary_reply).
  - lia.
  - intros i Hi. exists rate_limited.
    destruct i as [|i]; [split; reflexivity | lia].
  - reflexivity.
  - vm_compute. right; left. intros s H. discriminate H.
Defined.
